(** * Space-weather forecast API: a shallow embedding of [app/main.py]

    The development follows the Python module top to bottom.  Python values
    that reach the handlers from SQLite are modelled by [pyval]; exceptions
    by [result]; the calendar by validated records, as [datetime.date] and
    [datetime.datetime] validate their fields on construction.  Calls to
    the logger change no response and are left out; the lines printed by
    [process_real_forecast_data] are kept as a list of events. *)

From Stdlib Require Import ZArith Lia Bool List String Ascii.
From Stdlib Require Import Sorting.Sorted Sorting.Permutation.
From Stdlib Require Floats.SpecFloat.
Import ListNotations.

Local Open Scope string_scope.
Local Open Scope Z_scope.

(* ===================================================================== *)
(** * Python values and exceptions *)
(* ===================================================================== *)

Module Py.

(** A binary64 float, in the IEEE 754 view of the Standard Library. *)
Definition float := SpecFloat.spec_float.

(** The values [sqlite3] hands to Python (NULL, INTEGER, REAL, TEXT, BLOB)
    and the literals of the module. *)
Inductive pyval :=
| PyNone
| PyInt (z : Z)
| PyFloat (f : float)
| PyStr (s : string)
| PyBytes (b : string).

Inductive exn :=
| TypeError (msg : string)
| ValueError (msg : string)
| OverflowError (msg : string)
| DatabaseError (msg : string).

(** [str(e)] *)
Definition exn_str (e : exn) : string :=
  match e with
  | TypeError m | ValueError m | OverflowError m | DatabaseError m => m
  end.

Inductive result (A : Type) :=
| Ok (a : A)
| Raise (e : exn).
Arguments Ok {A} a.
Arguments Raise {A} e.

Definition bind {A B} (m : result A) (f : A -> result B) : result B :=
  match m with
  | Ok a => f a
  | Raise e => Raise e
  end.

Fixpoint mapM {A B} (f : A -> result B) (l : list A) : result (list B) :=
  match l with
  | [] => Ok []
  | x :: l' =>
      bind (f x) (fun y => bind (mapM f l') (fun ys => Ok (y :: ys)))
  end.

(** [type(v).__name__] *)
Definition type_name (v : pyval) : string :=
  match v with
  | PyNone => "NoneType"
  | PyInt _ => "int"
  | PyFloat _ => "float"
  | PyStr _ => "str"
  | PyBytes _ => "bytes"
  end.

(** ** Numbers

    Python compares [int] with [float], and [float] with [float], by exact
    value.  A finite number is [n * 2^e]. *)
Inductive xnum :=
| XNaN
| XNegInf
| XPosInf
| XFin (n e : Z).

Definition float_num (f : float) : xnum :=
  match f with
  | SpecFloat.S754_zero _ => XFin 0 0
  | SpecFloat.S754_infinity true => XNegInf
  | SpecFloat.S754_infinity false => XPosInf
  | SpecFloat.S754_nan => XNaN
  | SpecFloat.S754_finite true m e => XFin (Z.neg m) e
  | SpecFloat.S754_finite false m e => XFin (Z.pos m) e
  end.

Definition num_of (v : pyval) : option xnum :=
  match v with
  | PyInt z => Some (XFin z 0)
  | PyFloat f => Some (float_num f)
  | _ => None
  end.

Definition is_number (v : pyval) : bool :=
  match num_of v with Some _ => true | None => false end.

Definition is_nan (v : pyval) : bool :=
  match num_of v with Some XNaN => true | _ => false end.

Definition fin_compare (n1 e1 n2 e2 : Z) : comparison :=
  let k := Z.min e1 e2 in
  (n1 * 2 ^ (e1 - k) ?= n2 * 2 ^ (e2 - k)).

(** [None]: unordered (a NaN is involved). *)
Definition xcompare (a b : xnum) : option comparison :=
  match a, b with
  | XNaN, _ | _, XNaN => None
  | XNegInf, XNegInf => Some Eq
  | XNegInf, _ => Some Lt
  | _, XNegInf => Some Gt
  | XPosInf, XPosInf => Some Eq
  | XPosInf, _ => Some Gt
  | _, XPosInf => Some Lt
  | XFin n1 e1, XFin n2 e2 => Some (fin_compare n1 e1 n2 e2)
  end.

(** ** Rich comparison *)
Inductive cmpop := OpGt | OpGe | OpLe | OpLt.

Definition op_symbol (op : cmpop) : string :=
  match op with
  | OpGt => ">" | OpGe => ">=" | OpLe => "<=" | OpLt => "<"
  end.

Definition op_holds (op : cmpop) (c : option comparison) : bool :=
  match op, c with
  | OpGt, Some Gt => true
  | OpGe, Some Gt | OpGe, Some Eq => true
  | OpLe, Some Lt | OpLe, Some Eq => true
  | OpLt, Some Lt => true
  | _, _ => false
  end.

Definition not_supported (op : cmpop) (a b : pyval) : exn :=
  TypeError ("'" ++ op_symbol op ++ "' not supported between instances of '"
             ++ type_name a ++ "' and '" ++ type_name b ++ "'").

(** [a op b] for the ordering operators.  Numbers compare by value, [str]
    with [str] and [bytes] with [bytes] lexicographically; every other
    pairing raises [TypeError]. *)
Definition richcmp (op : cmpop) (a b : pyval) : result bool :=
  match num_of a, num_of b with
  | Some x, Some y => Ok (op_holds op (xcompare x y))
  | _, _ =>
      match a, b with
      | PyStr s, PyStr t => Ok (op_holds op (Some (String.compare s t)))
      | PyBytes s, PyBytes t => Ok (op_holds op (Some (String.compare s t)))
      | _, _ => Raise (not_supported op a b)
      end
  end.

Definition gt := richcmp OpGt.
Definition ge := richcmp OpGe.
Definition le := richcmp OpLe.
Definition lt := richcmp OpLt.

(** [max(values)] on a non-empty list: the first item is the candidate and
    a later [item] replaces it when [item > candidate]. *)
Fixpoint max_from (cur : pyval) (rest : list pyval) : result pyval :=
  match rest with
  | [] => Ok cur
  | item :: rest' =>
      bind (gt item cur) (fun b => max_from (if b then item else cur) rest')
  end.

Definition max (values : list pyval) : result pyval :=
  match values with
  | [] => Raise (ValueError "max() arg is an empty sequence")
  | v :: rest => max_from v rest
  end.

End Py.

Import Py.

Notation "x <- m ;; k" := (Py.bind m (fun x => k))
  (at level 61, m at next level, right associativity).

(* ===================================================================== *)
(** * Storm levels: [get_storm_level], [get_warning_message] *)
(* ===================================================================== *)

Definition float_9_0 : pyval := PyFloat (SpecFloat.S754_finite false 5066549580791808 (-49)).
Definition float_8_0 : pyval := PyFloat (SpecFloat.S754_finite false 4503599627370496 (-49)).
Definition float_7_0 : pyval := PyFloat (SpecFloat.S754_finite false 7881299347898368 (-50)).
Definition float_6_0 : pyval := PyFloat (SpecFloat.S754_finite false 6755399441055744 (-50)).
Definition float_5_0 : pyval := PyFloat (SpecFloat.S754_finite false 5629499534213120 (-50)).

Definition CALM := "Спокойное".
Definition MINOR := "Небольшая буря".
Definition MODERATE := "Умеренная буря".
Definition STRONG := "Сильная буря".
Definition VERY_STRONG := "Очень сильная буря".
Definition EXTREME := "Экстремальная буря".

Definition get_storm_level (kp_index : pyval) : result string :=
  b9 <- Py.ge kp_index float_9_0 ;;
  if b9 then Ok EXTREME else
  b8 <- Py.ge kp_index float_8_0 ;;
  if b8 then Ok VERY_STRONG else
  b7 <- Py.ge kp_index float_7_0 ;;
  if b7 then Ok STRONG else
  b6 <- Py.ge kp_index float_6_0 ;;
  if b6 then Ok MODERATE else
  b5 <- Py.ge kp_index float_5_0 ;;
  if b5 then Ok MINOR else Ok CALM.

(** [warnings.get(storm_level, default)] *)
Definition warnings : list (string * string) :=
  [ (CALM, "Геомагнитная обстановка спокойная");
    (MINOR, "Возможны незначительные колебания");
    (MODERATE, "Внимание! Умеренная магнитная буря");
    (STRONG, "Осторожно! Сильная магнитная буря");
    (VERY_STRONG, "ВНИМАНИЕ! Очень сильная магнитная буря");
    (EXTREME, "КРИТИЧЕСКО! Экстремальная магнитная буря") ].

Fixpoint dict_get {V} (d : list (string * V)) (k : string) : option V :=
  match d with
  | [] => None
  | (k', v) :: d' => if String.eqb k' k then Some v else dict_get d' k
  end.

Definition get_warning_message (storm_level : string) : string :=
  match dict_get warnings storm_level with
  | Some w => w
  | None => "Мониторинг геомагнитной активности"
  end.

(** The severity ordering of the levels, calmest first. *)
Definition severity (level : string) : nat :=
  if String.eqb level EXTREME then 5
  else if String.eqb level VERY_STRONG then 4
  else if String.eqb level STRONG then 3
  else if String.eqb level MODERATE then 2
  else if String.eqb level MINOR then 1
  else 0.

(* ===================================================================== *)
(** * The calendar: [datetime.date], [datetime.datetime] *)
(* ===================================================================== *)

Module Cal.

Definition is_leap (y : Z) : bool :=
  (y mod 4 =? 0) && (negb (y mod 100 =? 0) || (y mod 400 =? 0)).

Definition days_in_month (y m : Z) : Z :=
  if m =? 2 then (if is_leap y then 29 else 28)
  else if (m =? 4) || (m =? 6) || (m =? 9) || (m =? 11) then 30
  else 31.

(** The check of the [date] constructor: MINYEAR = 1, MAXYEAR = 9999. *)
Definition valid_date (y m d : Z) : bool :=
  (1 <=? y) && (y <=? 9999) && (1 <=? m) && (m <=? 12)
  && (1 <=? d) && (d <=? days_in_month y m).

Record date := mkdate {
  year : Z;
  month : Z;
  day : Z;
  date_ok : valid_date year month day = true
}.

Definition make_date (y m d : Z) : option date :=
  match bool_dec (valid_date y m d) true with
  | left H => Some (mkdate y m d H)
  | right _ => None
  end.

Definition valid_time (h mi s us : Z) : bool :=
  (0 <=? h) && (h <=? 23) && (0 <=? mi) && (mi <=? 59)
  && (0 <=? s) && (s <=? 59) && (0 <=? us) && (us <=? 999999).

Record datetime := mkdatetime {
  dt_date : date;            (* [.date()] *)
  hour : Z;
  minute : Z;
  second : Z;
  microsecond : Z;
  time_ok : valid_time hour minute second microsecond = true
}.

Definition make_datetime (y m d h mi s us : Z) : option datetime :=
  match make_date y m d with
  | Some dt =>
      match bool_dec (valid_time h mi s us) true with
      | left H => Some (mkdatetime dt h mi s us H)
      | right _ => None
      end
  | None => None
  end.

(** Ordering and equality of dates: by year, then month, then day. *)
Definition date_compare (a b : date) : comparison :=
  match year a ?= year b with
  | Eq => match month a ?= month b with
          | Eq => day a ?= day b
          | c => c
          end
  | c => c
  end.

Definition date_ltb (a b : date) : bool :=
  match date_compare a b with Lt => true | _ => false end.

Definition date_eqb (a b : date) : bool :=
  match date_compare a b with Eq => true | _ => false end.

(** [date.toordinal()], [date.weekday()] *)
Definition days_before_year (y : Z) : Z :=
  let y' := y - 1 in y' * 365 + y' / 4 - y' / 100 + y' / 400.

Definition days_before_month (y m : Z) : Z :=
  fold_right Z.add 0
    (map (days_in_month y)
         (firstn (Z.to_nat (m - 1)) [1; 2; 3; 4; 5; 6; 7; 8; 9; 10; 11; 12])).

Definition toordinal (d : date) : Z :=
  days_before_year (year d) + days_before_month (year d) (month d) + day d.

Definition weekday (d : date) : Z := (toordinal d + 6) mod 7.

(** [d + timedelta(days=1)]: the next calendar day, [OverflowError] past
    [date.max]. *)
Definition add_one_day (d : date) : result date :=
  match make_date (year d) (month d) (day d + 1) with
  | Some d' => Ok d'
  | None =>
      match make_date (year d) (month d + 1) 1 with
      | Some d' => Ok d'
      | None =>
          match make_date (year d + 1) 1 1 with
          | Some d' => Ok d'
          | None => Raise (OverflowError "date value out of range")
          end
      end
  end.

(** ** Formatting *)
Definition digit (n : Z) : ascii := ascii_of_N (48 + Z.to_N n).

Definition pad2 (n : Z) : string :=
  String (digit (n / 10)) (String (digit (n mod 10)) EmptyString).

Definition pad4 (n : Z) : string := pad2 (n / 100) ++ pad2 (n mod 100).

Definition pad6 (n : Z) : string := pad2 (n / 10000) ++ pad4 (n mod 10000).

(** [date.isoformat()]: YYYY-MM-DD *)
Definition isoformat (d : date) : string :=
  pad4 (year d) ++ "-" ++ pad2 (month d) ++ "-" ++ pad2 (day d).

(** [datetime.isoformat()]: the microseconds are printed when non-zero. *)
Definition datetime_isoformat (t : datetime) : string :=
  isoformat (dt_date t) ++ "T" ++ pad2 (hour t) ++ ":" ++ pad2 (minute t)
  ++ ":" ++ pad2 (second t)
  ++ (if microsecond t =? 0 then "" else "." ++ pad6 (microsecond t)).

(** [%B] in the C locale. *)
Definition month_name (m : Z) : string :=
  nth (Z.to_nat (m - 1))
    [ "January"; "February"; "March"; "April"; "May"; "June"; "July";
      "August"; "September"; "October"; "November"; "December" ] "".

(** [strftime("%d %B")] *)
Definition strftime_d_B (d : date) : string :=
  pad2 (day d) ++ " " ++ month_name (month d).

(** [strftime("%H:%M")] *)
Definition strftime_H_M (t : datetime) : string :=
  pad2 (hour t) ++ ":" ++ pad2 (minute t).

(** ** A parser for the fixed-width form of ["%Y-%m-%d %H:%M:%S"]

    [datetime.strptime] is library code and enters the model as a
    parameter; this instance accepts the nineteen-character form
    YYYY-MM-DD HH:MM:SS and is used to run the model on concrete rows. *)
Definition digit_val (c : ascii) : option Z :=
  let n := Z.of_N (N_of_ascii c) in
  if (48 <=? n) && (n <=? 57) then Some (n - 48) else None.

Fixpoint digits_val (acc : Z) (cs : list ascii) : option Z :=
  match cs with
  | [] => Some acc
  | c :: cs' =>
      match digit_val c with
      | Some v => digits_val (10 * acc + v) cs'
      | None => None
      end
  end.

Definition strptime_fixed (s : string) : result datetime :=
  let bad := Raise (ValueError "time data does not match format '%Y-%m-%d %H:%M:%S'") in
  match list_ascii_of_string s with
  | [y1; y2; y3; y4; c1; m1; m2; c2; d1; d2; c3; h1; h2; c4; i1; i2; c5; s1; s2] =>
      if Ascii.eqb c1 "-" && Ascii.eqb c2 "-" && Ascii.eqb c3 " "
         && Ascii.eqb c4 ":" && Ascii.eqb c5 ":"
      then
        match digits_val 0 [y1; y2; y3; y4], digits_val 0 [m1; m2],
              digits_val 0 [d1; d2], digits_val 0 [h1; h2],
              digits_val 0 [i1; i2], digits_val 0 [s1; s2] with
        | Some y, Some m, Some d, Some h, Some mi, Some sec =>
            match make_datetime y m d h mi sec 0 with
            | Some t => Ok t
            | None => bad
            end
        | _, _, _, _, _, _ => bad
        end
      else bad
  | _ => bad
  end.

End Cal.

(* ===================================================================== *)
(** * Rows, forecast structures and dictionaries *)
(* ===================================================================== *)

(** A [sqlite3.Row] of the table [kp_forecasts_3day]. *)
Record row := mkrow {
  forecast_timestamp : pyval;
  kp_index : pyval;
  forecast_period : pyval
}.

Record day_data := mkdata {
  values : list pyval;
  times : list string
}.

Record day_forecast := mkday {
  day : string;
  date : string;
  stormLevel : string;
  data : day_data
}.

Record forecast_response := mkresponse {
  location : string;
  currentStorm : string;
  warning : string;
  days : list day_forecast
}.

(** A [dict] with string keys, in insertion order. *)
Definition dict (V : Type) := list (string * V).

Definition dict_mem {V} (k : string) (d : dict V) : bool :=
  match dict_get d k with Some _ => true | None => false end.

(** [d[k] = v] *)
Fixpoint dict_set {V} (d : dict V) (k : string) (v : V) : dict V :=
  match d with
  | [] => [(k, v)]
  | (k', v') :: d' =>
      if String.eqb k' k then (k', v) :: d' else (k', v') :: dict_set d' k v
  end.

(** In-place mutation of the object stored under [k]. *)
Fixpoint dict_update {V} (d : dict V) (k : string) (f : V -> V) : dict V :=
  match d with
  | [] => []
  | (k', v') :: d' =>
      if String.eqb k' k then (k', f v') :: d'
      else (k', v') :: dict_update d' k f
  end.

(** [sorted(d.items(), key=lambda x: x[0])]: a stable sort that only asks
    whether one key is less than another. *)
Fixpoint insert_by_key {V} (x : string * V) (l : list (string * V))
  : list (string * V) :=
  match l with
  | [] => [x]
  | y :: l' =>
      if String.ltb (fst y) (fst x) then y :: insert_by_key x l'
      else x :: y :: l'
  end.

Definition sorted_by_key {V} (items : list (string * V)) : list (string * V) :=
  fold_right insert_by_key [] items.

(** The order of the sorted items: strictly ascending keys. *)
Definition key_lt {V} (x y : string * V) : Prop :=
  String.ltb (fst x) (fst y) = true.

Definition append_value (kp_value : pyval) (d : day_forecast) : day_forecast :=
  mkday (day d) (date d) (stormLevel d)
        (mkdata (values (data d) ++ [kp_value]) (times (data d))).

Definition append_time (time_str : string) (d : day_forecast) : day_forecast :=
  mkday (day d) (date d) (stormLevel d)
        (mkdata (values (data d)) (times (data d) ++ [time_str])).

Definition set_stormLevel (level : string) (d : day_forecast) : day_forecast :=
  mkday (day d) (date d) level (data d).

(* ===================================================================== *)
(** * The store: what [sqlite3] answers *)
(* ===================================================================== *)

Module Sql.

(** Storage classes in SQLite's sort order: NULL, numbers, TEXT, BLOB.
    SQLite stores a NaN as NULL. *)
Definition class (v : pyval) : Z :=
  match v with
  | PyNone => 0
  | PyInt _ => 1
  | PyFloat _ => if Py.is_nan v then 0 else 1
  | PyStr _ => 2
  | PyBytes _ => 3
  end.

Definition compare (a b : pyval) : comparison :=
  match class a ?= class b with
  | Eq =>
      match a, b with
      | PyStr s, PyStr t | PyBytes s, PyBytes t => String.compare s t
      | _, _ =>
          match Py.num_of a, Py.num_of b with
          | Some x, Some y =>
              match Py.xcompare x y with Some c => c | None => Eq end
          | _, _ => Eq
          end
      end
  | c => c
  end.

(** [a >= b] in a WHERE clause: NULL on either side is not true. *)
Definition ge (a b : pyval) : bool :=
  negb (class a =? 0) && negb (class b =? 0)
  && match compare a b with Lt => false | _ => true end.

(** ORDER BY forecast_timestamp; rows with equal keys keep table order. *)
Fixpoint insert_row (desc : bool) (r : row) (l : list row) : list row :=
  match l with
  | [] => [r]
  | r' :: l' =>
      let c := compare (forecast_timestamp r') (forecast_timestamp r) in
      if match c with Lt => negb desc | Gt => desc | Eq => false end
      then r' :: insert_row desc r l'
      else r :: r' :: l'
  end.

Definition order_by_timestamp (desc : bool) (rows : list row) : list row :=
  fold_right (insert_row desc) [] rows.

Record database := mkdb {
  table_names : list string;           (* sqlite_master *)
  kp_forecasts_3day : list row
}.

(** An open connection: either every statement fails (the file is not a
    database), or statements run against a database. *)
Inductive connection :=
| Corrupt (msg : string)
| Open (db : database).

Definition TABLE := "kp_forecasts_3day".

Definition has_table (db : database) : bool :=
  existsb (String.eqb TABLE) (table_names db).

Definition forecast_table (conn : connection) : result (list row) :=
  match conn with
  | Corrupt msg => Raise (DatabaseError msg)
  | Open db =>
      if has_table db then Ok (kp_forecasts_3day db)
      else Raise (DatabaseError ("no such table: " ++ TABLE))
  end.

(** SELECT name FROM sqlite_master WHERE type='table' *)
Definition select_table_names (conn : connection) : result (list string) :=
  match conn with
  | Corrupt msg => Raise (DatabaseError msg)
  | Open db => Ok (table_names db)
  end.

(** SELECT COUNT( * ) FROM kp_forecasts_3day *)
Definition select_count (conn : connection) : result nat :=
  t <- forecast_table conn ;; Ok (List.length t).

(** SELECT ... ORDER BY forecast_timestamp DESC LIMIT n *)
Definition select_latest (n : nat) (conn : connection) : result (list row) :=
  t <- forecast_table conn ;; Ok (firstn n (order_by_timestamp true t)).

(** SELECT ... WHERE forecast_timestamp >= datetime('now')
    ORDER BY forecast_timestamp LIMIT 48; [sql_now] is the text that
    datetime('now') evaluates to. *)
Definition select_upcoming (sql_now : string) (conn : connection)
  : result (list row) :=
  t <- forecast_table conn ;;
  Ok (firstn 48
        (order_by_timestamp false
           (filter (fun r => ge (forecast_timestamp r) (PyStr sql_now)) t))).

(** The file at DB_PATH. *)
Inductive store :=
| Missing                       (* os.path.exists(DB_PATH) is False *)
| Unopenable (msg : string)     (* sqlite3.connect raises *)
| Present (conn : connection).

End Sql.

(* ===================================================================== *)
(** * HTTP responses and the connection dependency *)
(* ===================================================================== *)

Inductive http_response (A : Type) :=
| Http200 (body : A)
| Http500 (detail : string).
Arguments Http200 {A} body.
Arguments Http500 {A} detail.

Definition DB_PATH := "c:\project\space-weather\scripts\magnetic_data.db".

(** What the framework answers when an exception other than
    [HTTPException] leaves a handler or a dependency. *)
Definition INTERNAL_SERVER_ERROR := "Internal Server Error".

(** [Depends(get_db_conn)]: the dependency runs before the handler body;
    its [HTTPException] and a failing [sqlite3.connect] end the request. *)
Definition get_db_conn {A} (st : Sql.store)
  (handler : Sql.connection -> http_response A) : http_response A :=
  match st with
  | Sql.Missing => Http500 ("Database file not found: " ++ DB_PATH)
  | Sql.Unopenable _ => Http500 INTERNAL_SERVER_ERROR
  | Sql.Present conn => handler conn
  end.

(** The world a request runs in. *)
Record env := mkenv {
  store : Sql.store;
  now : Cal.datetime;          (* datetime.now() *)
  sql_now : string;            (* datetime('now') in SQLite *)
  cwd : string                 (* os.getcwd() *)
}.

Definition today_of (e : env) : Cal.date := Cal.dt_date (now e).

(* ===================================================================== *)
(** * /health and /dbinfo *)
(* ===================================================================== *)

Record health_body := mkhealth {
  status : string;
  db_path : string;
  db_exists : bool;
  current_dir : string
}.

Definition health (e : env) : http_response health_body :=
  let db_exists :=
    match store e with Sql.Missing => false | _ => true end in
  Http200 (mkhealth (if db_exists then "ok" else "error")
                    DB_PATH db_exists (cwd e)).

Record dbinfo_body := mkdbinfo {
  tables : list string;
  current_time : string;
  kp_forecast_count : option nat;
  kp_forecast_last5 : option (list (pyval * pyval));
  error : option string
}.

Definition dbinfo_body_of (e : env) (conn : Sql.connection)
  : result dbinfo_body :=
  tables <- Sql.select_table_names conn ;;
  let current_time := Cal.datetime_isoformat (now e) in
  if existsb (String.eqb Sql.TABLE) tables then
    n <- Sql.select_count conn ;;
    last5 <- Sql.select_latest 5 conn ;;
    Ok (mkdbinfo tables current_time (Some n)
          (Some (map (fun r => (forecast_timestamp r, kp_index r)) last5))
          None)
  else
    Ok (mkdbinfo tables current_time None None
          (Some "Таблица kp_forecasts_3day не найдена")).

Definition dbinfo (e : env) : http_response dbinfo_body :=
  get_db_conn (store e) (fun conn =>
    match dbinfo_body_of e conn with
    | Ok info => Http200 info
    | Raise ex => Http500 (Py.exn_str ex)
    end).

(* ===================================================================== *)
(** * /api/status *)
(* ===================================================================== *)

Record status_body := mkstatus {
  current_kp : option (pyval * pyval);     (* timestamp, kp_index *)
  storm_level : string
}.

Definition NO_DATA := "Нет данных".

(** The if/elif chain of the handler; no branch is taken below 5.0. *)
Definition status_storm_level (kp : pyval) : result string :=
  match kp with
  | PyNone => Ok CALM
  | _ =>
      b9 <- Py.ge kp float_9_0 ;;
      if b9 then Ok EXTREME else
      b8 <- Py.ge kp float_8_0 ;;
      if b8 then Ok VERY_STRONG else
      b7 <- Py.ge kp float_7_0 ;;
      if b7 then Ok STRONG else
      b6 <- Py.ge kp float_6_0 ;;
      if b6 then Ok MODERATE else
      b5 <- Py.ge kp float_5_0 ;;
      if b5 then Ok MINOR else Ok CALM
  end.

Definition current_status_of (conn : Sql.connection) : result status_body :=
  rows <- Sql.select_latest 1 conn ;;
  match rows with
  | [] => Ok (mkstatus None NO_DATA)
  | row :: _ =>
      let ts := forecast_timestamp row in
      let kp := kp_index row in
      level <- status_storm_level kp ;;
      Ok (mkstatus (Some (ts, kp)) level)
  end.

Definition get_current_status (e : env) : http_response status_body :=
  get_db_conn (store e) (fun conn =>
    match current_status_of conn with
    | Ok body => Http200 body
    | Raise ex => Http200 (mkstatus None ("Ошибка: " ++ Py.exn_str ex))
    end).

(* ===================================================================== *)
(** * /api/forecast *)
(* ===================================================================== *)

Definition days_ru : list string :=
  [ "Понедельник"; "Вторник"; "Среда"; "Четверг"; "Пятница"; "Суббота";
    "Воскресенье" ].

Definition TODAY := "Сегодня".
Definition TOMORROW := "Завтра".

(** [today] is the date the clock shows; the model reads the clock once
    per request. *)
Definition get_day_name (today d : Cal.date) : result string :=
  if Cal.date_eqb d today then Ok TODAY
  else
    tomorrow <- Cal.add_one_day today ;;
    if Cal.date_eqb d tomorrow then Ok TOMORROW
    else Ok (nth (Z.to_nat (Cal.weekday d)) days_ru "").

Definition WEAK_STORM := "Слабая буря".
Definition DATA_UPDATING := "Данные обновляются".
Definition MOSCOW := "Москва".

Definition fallback_times : list string :=
  [ "06:00"; "09:00"; "12:00"; "15:00"; "18:00"; "21:00"; "00:00"; "03:00" ].

Definition fallback_values_today : list pyval :=
  [ PyInt 3; PyInt 4; PyInt 5; PyInt 4; PyInt 3; PyInt 4; PyInt 3; PyInt 4 ].

Definition fallback_values_tomorrow : list pyval :=
  [ PyInt 4; PyInt 3; PyInt 4; PyInt 5; PyInt 4; PyInt 3; PyInt 4; PyInt 3 ].

Definition get_fallback_forecast (today : Cal.date) : result forecast_response :=
  tomorrow <- Cal.add_one_day today ;;
  Ok (mkresponse MOSCOW WEAK_STORM DATA_UPDATING
        [ mkday TODAY (Cal.strftime_d_B today) WEAK_STORM
                (mkdata fallback_values_today fallback_times);
          mkday TOMORROW (Cal.strftime_d_B tomorrow) WEAK_STORM
                (mkdata fallback_values_tomorrow fallback_times) ]).

(** What [process_real_forecast_data] prints. *)
Inductive event :=
| PrintProcessing (n : nat)
| PrintParseError (timestamp_str : pyval) (e : exn)
| PrintFormed (n : nat)
| PrintResult (result : forecast_response).

(** The second half of the loop over the days: the level of one day. *)
Definition storm_level_of_day (d : day_forecast) : result day_forecast :=
  match values (data d) with
  | [] => Ok (set_stormLevel CALM d)
  | _ :: _ =>
      max_kp <- Py.max (values (data d)) ;;
      level <- get_storm_level max_kp ;;
      Ok (set_stormLevel level d)
  end.

Definition current_storm_of (days_list : list day_forecast) : result string :=
  match days_list with
  | d :: _ =>
      match values (data d) with
      | [] => Ok CALM
      | _ :: _ =>
          max_kp_today <- Py.max (values (data d)) ;;
          get_storm_level max_kp_today
      end
  | [] => Ok CALM
  end.

(** The samples dated [d] among parsed samples. *)
Definition on_day (d : Cal.date) (samples : list (Cal.datetime * pyval))
  : list (Cal.datetime * pyval) :=
  filter (fun s => Cal.date_eqb (Cal.dt_date (fst s)) d) samples.

(** The entry the row loop holds for day [d] after the samples [b] of
    that day: none before the first sample. *)
Definition day_of_samples (today d : Cal.date)
    (b : list (Cal.datetime * pyval)) : option day_forecast :=
  match b with
  | [] => None
  | _ :: _ =>
      match get_day_name today d with
      | Ok name =>
          Some (mkday name (Cal.strftime_d_B d) CALM
                  (mkdata (map snd b)
                          (map (fun s => Cal.strftime_H_M (fst s)) b)))
      | Raise _ => None
      end
  end.

(** The dictionary of the row loop after [samples]: one entry per day
    that has a sample, keyed by the ISO form of the day. *)
Definition buckets_of (today : Cal.date)
    (samples : list (Cal.datetime * pyval)) (fb : dict day_forecast) : Prop :=
  NoDup (map fst fb)
  /\ (forall k, In k (map fst fb) -> exists d, k = Cal.isoformat d)
  /\ (forall d, dict_get fb (Cal.isoformat d)
                = day_of_samples today d (on_day d samples)).

(** The level of a day agrees with the maximum of its series. *)
Definition level_of_max (dy : day_forecast) : Prop :=
  match values (data dy) with
  | [] => stormLevel dy = CALM
  | _ :: _ =>
      exists max_kp,
        Py.max (values (data dy)) = Ok max_kp
        /\ get_storm_level max_kp = Ok (stormLevel dy)
  end.

Section Forecast.

(** [datetime.strptime(_, "%Y-%m-%d %H:%M:%S")] on a [str]. *)
Variable strptime : string -> result Cal.datetime.

Definition parse_timestamp (timestamp_str : pyval) : result Cal.datetime :=
  match timestamp_str with
  | PyStr s => strptime s
  | v => Raise (TypeError ("strptime() argument 1 must be str, not "
                           ++ Py.type_name v))
  end.

(** The body of the row loop below the try block. *)
Definition add_sample (today : Cal.date)
    (forecasts_by_day : dict day_forecast)
    (row_date : Cal.date) (timestamp : Cal.datetime) (kp_value : pyval)
  : result (dict day_forecast) :=
  let date_key := Cal.isoformat row_date in
  let time_str := Cal.strftime_H_M timestamp in
  forecasts_by_day <-
    (if dict_mem date_key forecasts_by_day then Ok forecasts_by_day
     else
       day_name <- get_day_name today row_date ;;
       Ok (dict_set forecasts_by_day date_key
             (mkday day_name (Cal.strftime_d_B row_date) CALM
                    (mkdata [] [])))) ;;
  let forecasts_by_day :=
    dict_update forecasts_by_day date_key (append_value kp_value) in
  Ok (dict_update forecasts_by_day date_key (append_time time_str)).

(** The row loop: the printed lines and the dictionary it leaves. *)
Fixpoint bucket_rows (today : Cal.date) (rows : list row)
    (forecasts_by_day : dict day_forecast)
  : list event * result (dict day_forecast) :=
  match rows with
  | [] => ([], Ok forecasts_by_day)
  | row :: rest =>
      let timestamp_str := forecast_timestamp row in
      match parse_timestamp timestamp_str with
      | Raise e =>
          let (out, r) := bucket_rows today rest forecasts_by_day in
          (PrintParseError timestamp_str e :: out, r)
      | Ok timestamp =>
          let row_date := Cal.dt_date timestamp in
          if Cal.date_ltb row_date today
          then bucket_rows today rest forecasts_by_day
          else
            match add_sample today forecasts_by_day row_date timestamp
                             (kp_index row) with
            | Ok forecasts_by_day' => bucket_rows today rest forecasts_by_day'
            | Raise e => ([], Raise e)
            end
      end
  end.

Definition process_real_forecast_data (today : Cal.date) (rows : list row)
  : list event * result forecast_response :=
  let (out, r) := bucket_rows today rows [] in
  let out := PrintProcessing (List.length rows) :: out in
  match r with
  | Raise e => (out, Raise e)
  | Ok forecasts_by_day =>
      let sorted_days := sorted_by_key forecasts_by_day in
      let days_list := map snd (firstn 3 sorted_days) in
      match (days_list <- Py.mapM storm_level_of_day days_list ;;
             current_storm <- current_storm_of days_list ;;
             Ok (days_list, current_storm)) with
      | Raise e => (out, Raise e)
      | Ok (days_list, current_storm) =>
          let result :=
            mkresponse MOSCOW current_storm
                       (get_warning_message current_storm) days_list in
          ((out ++ [PrintFormed (List.length days_list); PrintResult result])%list,
           Ok result)
      end
  end.

(** The handler body inside its try block. *)
Definition forecast_of (e : env) (conn : Sql.connection)
  : result forecast_response :=
  rows <- Sql.select_upcoming (sql_now e) conn ;;
  match rows with
  | [] => get_fallback_forecast (today_of e)
  | _ :: _ => snd (process_real_forecast_data (today_of e) rows)
  end.

Definition get_3day_forecast (e : env) : http_response forecast_response :=
  get_db_conn (store e) (fun conn =>
    match forecast_of e conn with
    | Ok body => Http200 body
    | Raise _ =>
        match get_fallback_forecast (today_of e) with
        | Ok body => Http200 body
        | Raise _ => Http500 INTERNAL_SERVER_ERROR
        end
    end).

(** ** What the row loop retains

    The rows that pass the try block, with their parsed timestamps. *)
Fixpoint retained (today : Cal.date) (rows : list row)
  : list (Cal.datetime * pyval) :=
  match rows with
  | [] => []
  | row :: rest =>
      match parse_timestamp (forecast_timestamp row) with
      | Ok timestamp =>
          if Cal.date_ltb (Cal.dt_date timestamp) today
          then retained today rest
          else (timestamp, kp_index row) :: retained today rest
      | Raise _ => retained today rest
      end
  end.

(** The loop body run over retained samples only. *)
Fixpoint bucket_samples (today : Cal.date)
    (samples : list (Cal.datetime * pyval))
    (forecasts_by_day : dict day_forecast) : result (dict day_forecast) :=
  match samples with
  | [] => Ok forecasts_by_day
  | (timestamp, kp_value) :: rest =>
      forecasts_by_day' <-
        add_sample today forecasts_by_day (Cal.dt_date timestamp) timestamp
                   kp_value ;;
      bucket_samples today rest forecasts_by_day'
  end.

(** The rows whose timestamp parses to the calendar day [d], in input
    order. *)
Fixpoint samples_on (d : Cal.date) (rows : list row)
  : list (Cal.datetime * pyval) :=
  match rows with
  | [] => []
  | row :: rest =>
      match parse_timestamp (forecast_timestamp row) with
      | Ok timestamp =>
          if Cal.date_eqb (Cal.dt_date timestamp) d
          then (timestamp, kp_index row) :: samples_on d rest
          else samples_on d rest
      | Raise _ => samples_on d rest
      end
  end.

(** The day structure [dy] is the aggregation of calendar day [d]: its
    series is exactly the samples of [rows] dated [d], in input order. *)
Definition aggregates (today : Cal.date) (rows : list row) (d : Cal.date)
    (dy : day_forecast) : Prop :=
  samples_on d rows <> []
  /\ values (data dy) = map snd (samples_on d rows)
  /\ times (data dy)
     = map (fun s => Cal.strftime_H_M (fst s)) (samples_on d rows)
  /\ date dy = Cal.strftime_d_B d
  /\ get_day_name today d = Ok (day dy).

(** A well-formed row: the timestamp parses and the Kp index is a
    number. *)
Definition well_formed_row (r : row) : bool :=
  match parse_timestamp (forecast_timestamp r) with
  | Ok _ => Py.is_number (kp_index r)
  | Raise _ => false
  end.

(** A row the loop skips as stale: dated strictly before today. *)
Definition stale (today : Cal.date) (r : row) : bool :=
  match parse_timestamp (forecast_timestamp r) with
  | Ok timestamp => Cal.date_ltb (Cal.dt_date timestamp) today
  | Raise _ => false
  end.

End Forecast.

(* ===================================================================== *)
(** * Sample inputs *)
(* ===================================================================== *)

Definition float_9_5 : pyval := PyFloat (SpecFloat.S754_finite false 5348024557502464 (-49)).
Definition float_4_999 : pyval := PyFloat (SpecFloat.S754_finite false 5628373634306277 (-50)).
Definition float_6_2 : pyval := PyFloat (SpecFloat.S754_finite false 6980579422424269 (-50)).

(** A request on 3 November 2026: two samples today (one of them 6.2),
    one yesterday, one unreadable timestamp, and samples on the three
    following days. *)
Definition sample_today : Cal.date := Cal.mkdate 2026 11 3 eq_refl.

Definition sample_row (timestamp : string) (kp : pyval) : row :=
  mkrow (PyStr timestamp) kp (PyStr "3-day").

Definition stale_row : row := sample_row "2026-11-02 21:00:00" (PyInt 9).

Definition malformed_row : row := sample_row "03.11.2026 12:00" (PyInt 9).

Definition sample_rows : list row :=
  [ sample_row "2026-11-03 12:00:00" float_6_2;
    sample_row "2026-11-05 00:00:00" (PyInt 3);
    sample_row "2026-11-04 03:00:00" (PyInt 7);
    sample_row "2026-11-03 15:00:00" (PyInt 3);
    sample_row "2026-11-06 15:00:00" (PyInt 3) ].

Definition float_3_0 : pyval := PyFloat (SpecFloat.S754_finite false 6755399441055744 (-51)).
Definition float_2_0 : pyval := PyFloat (SpecFloat.S754_finite false 4503599627370496 (-51)).

(** One day with the series 3.0, 9.0, 2.0. *)
Definition peak_rows : list row :=
  [ sample_row "2026-11-03 12:00:00" float_3_0;
    sample_row "2026-11-03 15:00:00" float_9_0;
    sample_row "2026-11-03 18:00:00" float_2_0 ].

Definition sample_now : Cal.datetime := Cal.mkdatetime sample_today 10 0 0 0 eq_refl.

(** The same clock with the database file absent, with the file present
    but without the forecast table, and with an empty forecast table. *)
Definition missing_env : env :=
  mkenv Sql.Missing sample_now "2026-11-03 07:00:00" "/srv/space-weather".

Definition no_table_env : env :=
  mkenv (Sql.Present (Sql.Open (Sql.mkdb [] [])))
        sample_now "2026-11-03 07:00:00" "/srv/space-weather".

Definition empty_table_env : env :=
  mkenv (Sql.Present (Sql.Open (Sql.mkdb [Sql.TABLE] [])))
        sample_now "2026-11-03 07:00:00" "/srv/space-weather".

(* ===================================================================== *)
(** * /api/sun-times and /api/old-forecast *)
(* ===================================================================== *)

Record sun_times := mksun {
  dawnStart : string;
  sunrise : string;
  solarNoon : string;
  sunset : string;
  duskEnd : string
}.

Definition get_sun_times_api (e : env) : http_response sun_times :=
  let month := Cal.month (Cal.dt_date (now e)) in
  let is_winter := (10 <=? month) || (month <=? 2) in
  Http200 (mksun (if is_winter then "07:30" else "04:30")
                 (if is_winter then "08:45" else "05:45")
                 "12:30"
                 (if is_winter then "16:15" else "19:15")
                 (if is_winter then "17:30" else "20:30")).

Module Old.

Record entry := mkentry {
  day : string;
  date : string;
  kp_index : pyval;
  storm_level : string
}.

Record body := mkbody {
  forecast : list entry
}.

End Old.

(** An [OverflowError] of [today + timedelta(days=1)] leaves the handler,
    which has no try block. *)
Definition get_old_forecast (e : env) : http_response Old.body :=
  let today := today_of e in
  match Cal.add_one_day today with
  | Ok tomorrow =>
      Http200 (Old.mkbody
                 [ Old.mkentry "today" (Cal.isoformat today) float_3_0 "calm";
                   Old.mkentry "tomorrow" (Cal.isoformat tomorrow) float_5_0
                               "weak" ])
  | Raise _ => Http500 INTERNAL_SERVER_ERROR
  end.

(* ===================================================================== *)
(** * Views of the rows and of the store used in the statements *)
(* ===================================================================== *)

Definition GENERIC_WARNING := "Мониторинг геомагнитной активности".

(** The six levels of [get_storm_level]. *)
Definition storm_levels : list string :=
  [CALM; MINOR; MODERATE; STRONG; VERY_STRONG; EXTREME].

(** [a] does not sort after [b] in SQLite's order. *)
Definition sql_le (a b : pyval) : bool :=
  match Sql.compare a b with Gt => false | _ => true end.

(** The order ORDER BY forecast_timestamp [DESC] asks for. *)
Definition row_before (desc : bool) (r r' : row) : Prop :=
  if desc
  then sql_le (forecast_timestamp r') (forecast_timestamp r) = true
  else sql_le (forecast_timestamp r) (forecast_timestamp r') = true.

(** What every forecast body has: the fixed location, at most three
    days, and in each day a non-empty series of numbers with as many
    times as values. *)
Definition forecast_body_ok (body : forecast_response) : Prop :=
  location body = MOSCOW
  /\ (List.length (days body) <= 3)%nat
  /\ Forall (fun dy =>
               values (data dy) <> []
               /\ List.length (values (data dy))
                  = List.length (times (data dy))
               /\ Forall (fun v => Py.is_number v = true) (values (data dy)))
            (days body)
  /\ In (currentStorm body) (WEAK_STORM :: storm_levels)
  /\ warning body <> GENERIC_WARNING.

Section RowViews.

Variable strptime : string -> result Cal.datetime.

(** A row the loop passes over: unreadable timestamp, or a date before
    today. *)
Definition skipped (today : Cal.date) (r : row) : bool :=
  match parse_timestamp strptime (forecast_timestamp r) with
  | Ok timestamp => Cal.date_ltb (Cal.dt_date timestamp) today
  | Raise _ => true
  end.

(** One diagnostic line per row whose timestamp does not parse. *)
Definition parse_errors (rows : list row) : list event :=
  flat_map (fun r =>
              match parse_timestamp strptime (forecast_timestamp r) with
              | Ok _ => []
              | Raise e => [PrintParseError (forecast_timestamp r) e]
              end) rows.

End RowViews.

(** A row with a NULL Kp index on the fourth day of [sample_rows], and a
    table holding the sample rows. *)
Definition null_kp_row : row := sample_row "2026-11-06 18:00:00" PyNone.

(** A table whose only upcoming row has a NULL Kp index. *)
Definition null_kp_env : env :=
  mkenv (Sql.Present
           (Sql.Open (Sql.mkdb [Sql.TABLE]
                        [sample_row "2026-11-03 12:00:00" PyNone])))
        sample_now "2026-11-03 07:00:00" "/srv/space-weather".

Definition sample_table_env : env :=
  mkenv (Sql.Present (Sql.Open (Sql.mkdb [Sql.TABLE] (stale_row :: sample_rows))))
        sample_now "2026-11-03 07:00:00" "/srv/space-weather".

(* ===================================================================== *)
(** * Properties of the number order *)
(* ===================================================================== *)

Section NumberOrder.

Lemma fin_compare_scale (n1 e1 n2 e2 k : Z) :
  k <= e1 -> k <= e2 ->
  Py.fin_compare n1 e1 n2 e2 = (n1 * 2 ^ (e1 - k) ?= n2 * 2 ^ (e2 - k)).
Proof.
  intros H1 H2. unfold Py.fin_compare.
  set (m := Z.min e1 e2).
  assert (Hm1 : m <= e1) by (subst m; lia).
  assert (Hm2 : m <= e2) by (subst m; lia).
  assert (Hk : k <= m) by (subst m; lia).
  replace (e1 - k) with ((e1 - m) + (m - k)) by lia.
  replace (e2 - k) with ((e2 - m) + (m - k)) by lia.
  rewrite !Z.pow_add_r by lia.
  rewrite !Z.mul_assoc.
  apply Zmult_compare_compat_r.
  apply Z.lt_gt, Z.pow_pos_nonneg; lia.
Qed.

Lemma fin_compare_antisym (n1 e1 n2 e2 : Z) :
  Py.fin_compare n2 e2 n1 e1 = CompOpp (Py.fin_compare n1 e1 n2 e2).
Proof.
  unfold Py.fin_compare. rewrite (Z.min_comm e2 e1). apply Z.compare_antisym.
Qed.

Lemma xcompare_antisym (a b : Py.xnum) :
  Py.xcompare b a = option_map CompOpp (Py.xcompare a b).
Proof.
  destruct a, b; simpl; try reflexivity.
  now rewrite fin_compare_antisym.
Qed.

(** [a >= b] is [b <= a]. *)
Lemma op_ge_le (a b : Py.xnum) :
  Py.op_holds Py.OpGe (Py.xcompare a b)
  = Py.op_holds Py.OpLe (Py.xcompare b a).
Proof.
  rewrite (xcompare_antisym a b).
  destruct (Py.xcompare a b) as [[ | | ]|]; reflexivity.
Qed.

Lemma op_lt_not_ge (a b : Py.xnum) :
  Py.op_holds Py.OpLt (Py.xcompare a b) = true ->
  Py.op_holds Py.OpGe (Py.xcompare a b) = false.
Proof. destruct (Py.xcompare a b) as [[ | | ]|]; simpl; congruence. Qed.

Ltac three_fins n1 e1 n2 e2 n3 e3 :=
  let k := fresh "k" in
  set (k := Z.min e1 (Z.min e2 e3));
  rewrite (fin_compare_scale n1 e1 n2 e2 k) by (subst k; lia);
  rewrite (fin_compare_scale n2 e2 n3 e3 k) by (subst k; lia);
  rewrite (fin_compare_scale n1 e1 n3 e3 k) by (subst k; lia);
  generalize (n1 * 2 ^ (e1 - k)) (n2 * 2 ^ (e2 - k)) (n3 * 2 ^ (e3 - k));
  intros x y z;
  destruct (Z.compare_spec x y), (Z.compare_spec y z), (Z.compare_spec x z);
  simpl; intros; try reflexivity; try discriminate; lia.

Lemma xle_trans (a b c : Py.xnum) :
  Py.op_holds Py.OpLe (Py.xcompare a b) = true ->
  Py.op_holds Py.OpLe (Py.xcompare b c) = true ->
  Py.op_holds Py.OpLe (Py.xcompare a c) = true.
Proof.
  destruct a as [ | | |n1 e1], b as [ | | |n2 e2], c as [ | | |n3 e3];
    simpl; try congruence.
  three_fins n1 e1 n2 e2 n3 e3.
Qed.

Lemma xlt_le_trans (a b c : Py.xnum) :
  Py.op_holds Py.OpLt (Py.xcompare a b) = true ->
  Py.op_holds Py.OpLe (Py.xcompare b c) = true ->
  Py.op_holds Py.OpLt (Py.xcompare a c) = true.
Proof.
  destruct a as [ | | |n1 e1], b as [ | | |n2 e2], c as [ | | |n3 e3];
    simpl; try congruence.
  three_fins n1 e1 n2 e2 n3 e3.
Qed.

End NumberOrder.

(** A comparison with a number answers only for a number. *)
Lemma richcmp_number_r (op : Py.cmpop) (a b : pyval) (r : bool) :
  Py.is_number b = true ->
  Py.richcmp op a b = Ok r ->
  exists x y, Py.num_of a = Some x /\ Py.num_of b = Some y
              /\ r = Py.op_holds op (Py.xcompare x y).
Proof.
  unfold Py.is_number, Py.richcmp.
  destruct (Py.num_of b) as [y|] eqn:Hb; [intros _|discriminate].
  destruct (Py.num_of a) as [x|] eqn:Ha.
  - intros [= <-]. now exists x, y.
  - destruct a, b; simpl in *; try discriminate.
Qed.

Lemma richcmp_numbers (op : Py.cmpop) (a b : pyval) (x y : Py.xnum) :
  Py.num_of a = Some x -> Py.num_of b = Some y ->
  Py.richcmp op a b = Ok (Py.op_holds op (Py.xcompare x y)).
Proof. unfold Py.richcmp. now intros -> ->. Qed.

(* ===================================================================== *)
(** * The classification *)
(* ===================================================================== *)

(** The float literals of [get_storm_level] denote 9, 8, 7, 6 and 5. *)
Lemma thresholds_exact :
  Py.richcmp Py.OpGe float_9_0 (PyInt 9) = Ok true
  /\ Py.richcmp Py.OpLe float_9_0 (PyInt 9) = Ok true
  /\ Py.richcmp Py.OpGe float_8_0 (PyInt 8) = Ok true
  /\ Py.richcmp Py.OpLe float_8_0 (PyInt 8) = Ok true
  /\ Py.richcmp Py.OpGe float_7_0 (PyInt 7) = Ok true
  /\ Py.richcmp Py.OpLe float_7_0 (PyInt 7) = Ok true
  /\ Py.richcmp Py.OpGe float_6_0 (PyInt 6) = Ok true
  /\ Py.richcmp Py.OpLe float_6_0 (PyInt 6) = Ok true
  /\ Py.richcmp Py.OpGe float_5_0 (PyInt 5) = Ok true
  /\ Py.richcmp Py.OpLe float_5_0 (PyInt 5) = Ok true.
Proof. repeat split; vm_compute; reflexivity. Qed.

(** [float_4_999] is the binary64 number nearest to 4.999: it is
    [m * 2^-50] with [|m / 2^50 - 4999/1000|] at most half a unit in the
    last place; [float_9_5] is 19/2. *)
Lemma sample_floats_exact :
  float_4_999 = PyFloat (SpecFloat.S754_finite false 5628373634306277 (-50))
  /\ Z.abs (1000 * 5628373634306277 - 4999 * 2 ^ 50) * 2 <= 1000
  /\ float_9_5 = PyFloat (SpecFloat.S754_finite false 5348024557502464 (-49))
  /\ 2 * 5348024557502464 = 19 * 2 ^ 49.
Proof. repeat split; vm_compute; congruence. Qed.

(** Below a threshold means below every higher threshold. *)
Lemma lt_le_trans_ge_false (a b c : pyval) :
  Py.is_number b = true -> Py.is_number c = true ->
  Py.lt a b = Ok true -> Py.le b c = Ok true -> Py.ge a c = Ok false.
Proof.
  intros Hb Hc Hab Hbc.
  destruct (richcmp_number_r _ _ _ _ Hb Hab) as (x & y & Hx & Hy & Hr).
  destruct (richcmp_number_r _ _ _ _ Hc Hbc) as (y' & z & Hy' & Hz & Hr').
  rewrite Hy in Hy'. injection Hy' as <-.
  unfold Py.ge. rewrite (richcmp_numbers _ _ _ _ _ Hx Hz).
  f_equal. apply op_lt_not_ge. eapply xlt_le_trans; eauto.
Qed.

(** An ordering comparison answers only for two values of one kind. *)
Lemma richcmp_same_kind op a b r :
  Py.richcmp op a b = Ok r -> Py.is_number a = Py.is_number b.
Proof. destruct a, b; simpl; intros H; try reflexivity; discriminate. Qed.

Lemma number_num a : Py.is_number a = true -> exists x, Py.num_of a = Some x.
Proof. unfold Py.is_number. destruct (Py.num_of a); [eauto|discriminate]. Qed.

Lemma get_storm_level_number kp level :
  get_storm_level kp = Ok level -> Py.is_number kp = true.
Proof.
  unfold get_storm_level.
  destruct (Py.ge kp float_9_0) eqn:G; [|discriminate]. intros _.
  now rewrite (richcmp_same_kind _ _ _ _ G).
Qed.

Lemma get_storm_level_total kp :
  Py.is_number kp = true -> exists level, get_storm_level kp = Ok level.
Proof.
  intros Hn. destruct (number_num _ Hn) as (x & Hx).
  unfold get_storm_level, Py.ge.
  rewrite (richcmp_numbers Py.OpGe kp float_9_0 x _ Hx eq_refl).
  rewrite (richcmp_numbers Py.OpGe kp float_8_0 x _ Hx eq_refl).
  rewrite (richcmp_numbers Py.OpGe kp float_7_0 x _ Hx eq_refl).
  rewrite (richcmp_numbers Py.OpGe kp float_6_0 x _ Hx eq_refl).
  rewrite (richcmp_numbers Py.OpGe kp float_5_0 x _ Hx eq_refl).
  cbn [Py.bind].
  repeat match goal with
         | |- context [if ?b then _ else _] => destruct b
         end; eauto.
Qed.

Ltac threshold_facts :=
  repeat match goal with
  | |- Py.is_number _ = true => reflexivity
  | |- Py.le _ _ = Ok true => reflexivity
  end.

(** C1: [get_storm_level] tests the breakpoints from the highest down,
    each with an inclusive lower bound: at least 9.0 is Extreme, from 8.0
    up to 9.0 Very strong, from 7.0 Strong, from 6.0 Moderate, from 5.0
    Minor, and anything below 5.0 is the calmest level; every number is
    classified; 9.0 and 9.5 are Extreme and 4.999 is Calm. *)
Theorem get_storm_level_breakpoints (kp : pyval) :
  (Py.ge kp float_9_0 = Ok true -> get_storm_level kp = Ok EXTREME)
  /\ (Py.ge kp float_8_0 = Ok true -> Py.lt kp float_9_0 = Ok true ->
      get_storm_level kp = Ok VERY_STRONG)
  /\ (Py.ge kp float_7_0 = Ok true -> Py.lt kp float_8_0 = Ok true ->
      get_storm_level kp = Ok STRONG)
  /\ (Py.ge kp float_6_0 = Ok true -> Py.lt kp float_7_0 = Ok true ->
      get_storm_level kp = Ok MODERATE)
  /\ (Py.ge kp float_5_0 = Ok true -> Py.lt kp float_6_0 = Ok true ->
      get_storm_level kp = Ok MINOR)
  /\ (Py.lt kp float_5_0 = Ok true -> get_storm_level kp = Ok CALM)
  /\ (Py.is_number kp = true -> exists level, get_storm_level kp = Ok level)
  /\ get_storm_level float_9_0 = Ok EXTREME
  /\ get_storm_level float_9_5 = Ok EXTREME
  /\ get_storm_level float_4_999 = Ok CALM.
Proof.
  unfold get_storm_level.
  split; [intros ->; reflexivity|].
  split; [intros H8 L9|].
  { rewrite (lt_le_trans_ge_false kp float_9_0 float_9_0) by (assumption || threshold_facts).
    simpl. now rewrite H8. }
  split; [intros H7 L8|].
  { rewrite (lt_le_trans_ge_false kp float_8_0 float_9_0) by (assumption || threshold_facts).
    rewrite (lt_le_trans_ge_false kp float_8_0 float_8_0) by (assumption || threshold_facts).
    simpl. now rewrite H7. }
  split; [intros H6 L7|].
  { rewrite (lt_le_trans_ge_false kp float_7_0 float_9_0) by (assumption || threshold_facts).
    rewrite (lt_le_trans_ge_false kp float_7_0 float_8_0) by (assumption || threshold_facts).
    rewrite (lt_le_trans_ge_false kp float_7_0 float_7_0) by (assumption || threshold_facts).
    simpl. now rewrite H6. }
  split; [intros H5 L6|].
  { rewrite (lt_le_trans_ge_false kp float_6_0 float_9_0) by (assumption || threshold_facts).
    rewrite (lt_le_trans_ge_false kp float_6_0 float_8_0) by (assumption || threshold_facts).
    rewrite (lt_le_trans_ge_false kp float_6_0 float_7_0) by (assumption || threshold_facts).
    rewrite (lt_le_trans_ge_false kp float_6_0 float_6_0) by (assumption || threshold_facts).
    simpl. now rewrite H5. }
  split; [intros L5|].
  { rewrite (lt_le_trans_ge_false kp float_5_0 float_9_0) by (assumption || threshold_facts).
    rewrite (lt_le_trans_ge_false kp float_5_0 float_8_0) by (assumption || threshold_facts).
    rewrite (lt_le_trans_ge_false kp float_5_0 float_7_0) by (assumption || threshold_facts).
    rewrite (lt_le_trans_ge_false kp float_5_0 float_6_0) by (assumption || threshold_facts).
    rewrite (lt_le_trans_ge_false kp float_5_0 float_5_0) by (assumption || threshold_facts).
    reflexivity. }
  split; [apply get_storm_level_total|].
  repeat split; vm_compute; reflexivity.
Qed.

Lemma get_storm_level_breakpoints_witness :
  get_storm_level (PyInt 8) = Ok VERY_STRONG.
Proof.
  apply (proj1 (proj2 (get_storm_level_breakpoints (PyInt 8))));
    vm_compute; reflexivity.
Defined.

(** C9: the classification is monotone: for numbers [kp1 <= kp2] the
    level of [kp1] is at most as severe as the level of [kp2], in the
    order calmest, Minor, Moderate, Strong, Very strong, Extreme. *)
Theorem get_storm_level_monotone (kp1 kp2 : pyval) :
  Py.is_number kp1 = true -> Py.is_number kp2 = true ->
  Py.le kp1 kp2 = Ok true ->
  exists l1 l2,
    get_storm_level kp1 = Ok l1 /\ get_storm_level kp2 = Ok l2
    /\ (severity l1 <= severity l2)%nat.
Proof.
  intros H1 H2 Hle.
  destruct (richcmp_number_r _ _ _ _ H2 Hle) as (x & y & Hx & Hy & Hxy).
  symmetry in Hxy.
  assert (Hmono : forall t,
             Py.op_holds Py.OpGe (Py.xcompare x t) = true ->
             Py.op_holds Py.OpGe (Py.xcompare y t) = true).
  { intros t. rewrite !op_ge_le. intros Ht. eapply xle_trans; eauto. }
  unfold get_storm_level, Py.ge.
  repeat match goal with
  | |- context [Py.richcmp Py.OpGe kp1 ?t] =>
      rewrite (richcmp_numbers Py.OpGe kp1 t x _ Hx eq_refl)
  | |- context [Py.richcmp Py.OpGe kp2 ?t] =>
      rewrite (richcmp_numbers Py.OpGe kp2 t y _ Hy eq_refl)
  end.
  cbn [Py.bind Py.num_of float_9_0 float_8_0 float_7_0 float_6_0 float_5_0].
  repeat match goal with
  | |- context [Py.op_holds Py.OpGe (Py.xcompare x ?t)] =>
      let b := fresh "b" in
      let Hb := fresh "Hb" in
      pose proof (Hmono t) as Hb;
      destruct (Py.op_holds Py.OpGe (Py.xcompare x t)) eqn:b;
      [rewrite (Hb eq_refl)|clear Hb]
  end;
  repeat match goal with
  | |- context [if ?b then _ else _] => destruct b
  end;
  eexists; eexists; (split; [reflexivity|split; [reflexivity|]]);
  vm_compute; repeat constructor.
Qed.

Lemma get_storm_level_monotone_witness :
  exists l1 l2,
    get_storm_level float_4_999 = Ok l1 /\ get_storm_level float_9_5 = Ok l2
    /\ (severity l1 <= severity l2)%nat.
Proof.
  apply (get_storm_level_monotone float_4_999 float_9_5);
    vm_compute; reflexivity.
Defined.

(* ===================================================================== *)
(** * The calendar *)
(* ===================================================================== *)

Section StringOrder.

Lemma compare_refl (s : string) : String.compare s s = Eq.
Proof.
  induction s as [|c s IH]; simpl; [reflexivity|].
  unfold Ascii.compare. now rewrite N.compare_refl.
Qed.

(** Comparing two concatenations whose heads have the same length. *)
Lemma compare_app (a a' b b' : string) :
  String.length a = String.length a' ->
  String.compare (a ++ b) (a' ++ b')
  = match String.compare a a' with
    | Eq => String.compare b b'
    | c => c
    end.
Proof.
  revert a'. induction a as [|c a IH]; intros [|c' a'] Hlen;
    simpl in *; try discriminate; [reflexivity|].
  destruct (Ascii.compare c c'); auto.
Qed.

Lemma digit_compare (x y : Z) :
  0 <= x < 10 -> 0 <= y < 10 ->
  Ascii.compare (Cal.digit x) (Cal.digit y) = (x ?= y).
Proof.
  intros Hx Hy. unfold Ascii.compare, Cal.digit.
  rewrite !N_ascii_embedding by lia.
  rewrite <- N2Z.inj_compare, !N2Z.inj_add, !Z2N.id by lia.
  apply Z.add_compare_mono_l.
Qed.

(** Comparing quotients first and remainders second compares numbers. *)
Lemma compare_div_mod (b x y : Z) :
  0 < b ->
  (x ?= y)
  = match x / b ?= y / b with
    | Eq => x mod b ?= y mod b
    | c => c
    end.
Proof.
  intros Hb.
  pose proof (Z.div_mod x b ltac:(lia)) as Ex.
  pose proof (Z.div_mod y b ltac:(lia)) as Ey.
  pose proof (Z.mod_pos_bound x b Hb) as Bx.
  pose proof (Z.mod_pos_bound y b Hb) as By.
  destruct (Z.compare_spec (x / b) (y / b)) as [E|L|L].
  - rewrite Ex, Ey at 1. rewrite E.
    destruct (Z.compare_spec (x mod b) (y mod b));
      [apply Z.compare_eq_iff|apply Z.compare_lt_iff|apply Z.compare_gt_iff];
      lia.
  - apply Z.compare_lt_iff. nia.
  - apply Z.compare_gt_iff. nia.
Qed.

Lemma pad2_compare (x y : Z) :
  0 <= x < 100 -> 0 <= y < 100 ->
  String.compare (Cal.pad2 x) (Cal.pad2 y) = (x ?= y).
Proof.
  intros Hx Hy. unfold Cal.pad2. simpl.
  rewrite (digit_compare (x / 10) (y / 10))
    by (split; [apply Z.div_pos|apply Z.div_lt_upper_bound]; lia).
  rewrite (digit_compare (x mod 10) (y mod 10))
    by (apply Z.mod_pos_bound; lia).
  rewrite (compare_div_mod 10 x y) by lia.
  destruct (x / 10 ?= y / 10); try reflexivity.
  destruct (x mod 10 ?= y mod 10); reflexivity.
Qed.

Lemma pad4_compare (x y : Z) :
  0 <= x < 10000 -> 0 <= y < 10000 ->
  String.compare (Cal.pad4 x) (Cal.pad4 y) = (x ?= y).
Proof.
  intros Hx Hy. unfold Cal.pad4.
  rewrite compare_app by reflexivity.
  rewrite (pad2_compare (x / 100) (y / 100))
    by (split; [apply Z.div_pos|apply Z.div_lt_upper_bound]; lia).
  rewrite (pad2_compare (x mod 100) (y mod 100))
    by (apply Z.mod_pos_bound; lia).
  symmetry. apply compare_div_mod. lia.
Qed.

End StringOrder.

Section Dates.

Lemma days_in_month_bounds (y m : Z) : 28 <= Cal.days_in_month y m <= 31.
Proof.
  unfold Cal.days_in_month.
  destruct (m =? 2); [destruct (Cal.is_leap y); lia|].
  destruct ((m =? 4) || (m =? 6) || (m =? 9) || (m =? 11)); lia.
Qed.

Lemma valid_date_iff (y m d : Z) :
  Cal.valid_date y m d = true
  <-> 1 <= y <= 9999 /\ 1 <= m <= 12 /\ 1 <= d <= Cal.days_in_month y m.
Proof.
  unfold Cal.valid_date. rewrite !andb_true_iff, !Z.leb_le. lia.
Qed.

Lemma date_bounds (d : Cal.date) :
  1 <= Cal.year d <= 9999 /\ 1 <= Cal.month d <= 12
  /\ 1 <= Cal.day d <= Cal.days_in_month (Cal.year d) (Cal.month d).
Proof. apply valid_date_iff, Cal.date_ok. Qed.

(** ISO keys sort like the dates they are made from. *)
Lemma isoformat_compare (a b : Cal.date) :
  String.compare (Cal.isoformat a) (Cal.isoformat b) = Cal.date_compare a b.
Proof.
  pose proof (date_bounds a) as (Ya & Ma & Da).
  pose proof (date_bounds b) as (Yb & Mb & Db).
  pose proof (days_in_month_bounds (Cal.year a) (Cal.month a)).
  pose proof (days_in_month_bounds (Cal.year b) (Cal.month b)).
  unfold Cal.isoformat, Cal.date_compare.
  rewrite compare_app by reflexivity.
  rewrite pad4_compare by lia.
  destruct (Cal.year a ?= Cal.year b); try reflexivity.
  change ("-" ++ ?s) with (String "-" s). cbn [String.compare].
  change (Ascii.compare "-" "-") with Eq. cbv iota.
  rewrite compare_app by reflexivity.
  rewrite pad2_compare by lia.
  destruct (Cal.month a ?= Cal.month b); try reflexivity.
  cbn [String.compare].
  change (Ascii.compare "-" "-") with Eq. cbv iota.
  apply pad2_compare; lia.
Qed.

Lemma date_compare_eq (a b : Cal.date) :
  Cal.date_compare a b = Eq
  <-> Cal.year a = Cal.year b /\ Cal.month a = Cal.month b
      /\ Cal.day a = Cal.day b.
Proof.
  unfold Cal.date_compare.
  destruct (Z.compare_spec (Cal.year a) (Cal.year b));
    destruct (Z.compare_spec (Cal.month a) (Cal.month b));
    destruct (Z.compare_spec (Cal.day a) (Cal.day b));
    split; intros; try discriminate; try reflexivity; lia.
Qed.

Lemma date_compare_lt (a b : Cal.date) :
  Cal.date_compare a b = Lt
  <-> Cal.year a < Cal.year b
      \/ (Cal.year a = Cal.year b
          /\ (Cal.month a < Cal.month b
              \/ (Cal.month a = Cal.month b /\ Cal.day a < Cal.day b))).
Proof.
  unfold Cal.date_compare.
  destruct (Z.compare_spec (Cal.year a) (Cal.year b));
    destruct (Z.compare_spec (Cal.month a) (Cal.month b));
    destruct (Z.compare_spec (Cal.day a) (Cal.day b));
    split; intros; try discriminate; try reflexivity; lia.
Qed.

Lemma date_ltb_lt (a b : Cal.date) :
  Cal.date_ltb a b = true <-> Cal.date_compare a b = Lt.
Proof.
  unfold Cal.date_ltb. destruct (Cal.date_compare a b); split; congruence.
Qed.

Lemma date_ltb_trans (a b c : Cal.date) :
  Cal.date_ltb a b = true -> Cal.date_ltb b c = true ->
  Cal.date_ltb a c = true.
Proof. rewrite !date_ltb_lt, !date_compare_lt. lia. Qed.

Lemma date_ltb_irrefl (a : Cal.date) : Cal.date_ltb a a = false.
Proof.
  destruct (Cal.date_ltb a a) eqn:E; [|reflexivity].
  apply date_ltb_lt, date_compare_lt in E. lia.
Qed.

(** Equal ISO keys come from the same calendar day. *)
Lemma isoformat_eq (a b : Cal.date) :
  Cal.isoformat a = Cal.isoformat b -> Cal.date_eqb a b = true.
Proof.
  intros E. unfold Cal.date_eqb.
  now rewrite <- isoformat_compare, E, compare_refl.
Qed.

(** A day that is not the last representable one has a next day. *)
Lemma add_one_day_defined (today d : Cal.date) :
  Cal.date_ltb today d = true -> exists t, Cal.add_one_day today = Ok t.
Proof.
  intros L. apply date_ltb_lt, date_compare_lt in L.
  pose proof (date_bounds today) as (Y & M & D).
  pose proof (date_bounds d) as (Y' & M' & D').
  unfold Cal.add_one_day, Cal.make_date.
  destruct (bool_dec _ true) as [|N1]; [eauto|].
  destruct (bool_dec _ true) as [|N2]; [eauto|].
  destruct (bool_dec _ true) as [|N3]; [eauto|].
  exfalso.
  rewrite valid_date_iff in N1, N2, N3.
  pose proof (days_in_month_bounds (Cal.year today) (Cal.month today + 1)).
  pose proof (days_in_month_bounds (Cal.year today + 1) 1).
  assert (Em : Cal.month today = 12) by lia.
  assert (Ey : Cal.year today = 9999) by lia.
  assert (Ed : Cal.day today = Cal.days_in_month 9999 12) by (rewrite Em, Ey in *; lia).
  assert (Cal.month d = 12) by lia.
  assert (Cal.year d = 9999) by lia.
  replace (Cal.month d) with 12 in D' by lia.
  replace (Cal.year d) with 9999 in D' by lia.
  lia.
Qed.

(** In particular every day before the year 9999 has one. *)
Lemma add_one_day_before_max (d : Cal.date) :
  Cal.year d < 9999 -> exists t, Cal.add_one_day d = Ok t.
Proof.
  intros H. apply (add_one_day_defined d (Cal.mkdate 9999 12 31 eq_refl)).
  apply date_ltb_lt, date_compare_lt. simpl. lia.
Qed.

(** [add_one_day] is the successor on ordinals, as in
    [date.fromordinal(d.toordinal() + 1)]. *)
Lemma add_one_day_toordinal (d t : Cal.date) :
  Cal.add_one_day d = Ok t -> Cal.toordinal t = Cal.toordinal d + 1.
Proof.
  pose proof (date_bounds d) as (Y & M & D).
  unfold Cal.add_one_day, Cal.make_date.
  destruct (bool_dec _ true) as [V1|N1].
  { intros [= <-]. unfold Cal.toordinal. simpl. lia. }
  destruct (bool_dec _ true) as [V2|N2].
  { intros [= <-]. unfold Cal.toordinal. simpl.
    rewrite valid_date_iff in N1, V2.
    assert (Ed : Cal.day d = Cal.days_in_month (Cal.year d) (Cal.month d)) by lia.
    rewrite Ed. generalize (Cal.year d). intros y.
    assert (Hm : Cal.month d = 1 \/ Cal.month d = 2 \/ Cal.month d = 3
                 \/ Cal.month d = 4 \/ Cal.month d = 5 \/ Cal.month d = 6
                 \/ Cal.month d = 7 \/ Cal.month d = 8 \/ Cal.month d = 9
                 \/ Cal.month d = 10 \/ Cal.month d = 11) by lia.
    unfold Cal.days_before_month.
    generalize (Cal.days_before_year y) (Cal.days_in_month y). intros o f.
    repeat (destruct Hm as [-> | Hm]); try rewrite Hm; simpl; lia. }
  destruct (bool_dec _ true) as [V3|N3]; [|discriminate].
  intros [= <-]. unfold Cal.toordinal. simpl.
  rewrite valid_date_iff in N1, N2, V3.
  pose proof (days_in_month_bounds (Cal.year d) (Cal.month d + 1)).
  assert (Em : Cal.month d = 12) by lia.
  assert (Ed : Cal.day d = 31) by (rewrite Em in *; unfold Cal.days_in_month in *; simpl in *; lia).
  rewrite Em, Ed. unfold Cal.days_before_month, Cal.days_before_year.
  simpl firstn. simpl map. simpl fold_right.
  replace (Cal.year d + 1 - 1) with (Cal.year d) by lia.
  unfold Cal.days_in_month at 1. simpl (2 =? 2).
  unfold Cal.is_leap.
  generalize (Cal.year d). intros y.
  destruct (y mod 4 =? 0) eqn:E4; destruct (y mod 100 =? 0) eqn:E100;
    destruct (y mod 400 =? 0) eqn:E400; simpl;
    rewrite ?Z.eqb_eq, ?Z.eqb_neq in *;
    Z.div_mod_to_equations; lia.
Qed.

Lemma date_compare_antisym (a b : Cal.date) :
  Cal.date_compare b a = CompOpp (Cal.date_compare a b).
Proof.
  unfold Cal.date_compare.
  rewrite (Z.compare_antisym (Cal.year a)), (Z.compare_antisym (Cal.month a)),
    (Z.compare_antisym (Cal.day a)).
  destruct (Cal.year a ?= Cal.year b); simpl; try reflexivity.
  destruct (Cal.month a ?= Cal.month b); reflexivity.
Qed.

Lemma date_eqb_refl (a : Cal.date) : Cal.date_eqb a a = true.
Proof.
  unfold Cal.date_eqb.
  now rewrite (proj2 (date_compare_eq a a)).
Qed.

(** On or after today: equal to today, or today is earlier. *)
Lemma not_stale_cases (today d : Cal.date) :
  Cal.date_ltb d today = false ->
  Cal.date_eqb d today = true \/ Cal.date_ltb today d = true.
Proof.
  unfold Cal.date_ltb, Cal.date_eqb. rewrite (date_compare_antisym d today).
  destruct (Cal.date_compare d today); simpl; auto; discriminate.
Qed.

(** The loop asks for the name of no day before today, so the name is
    always found: tomorrow is computed only when a later day exists. *)
Lemma get_day_name_defined (today d : Cal.date) :
  Cal.date_ltb d today = false -> exists name, get_day_name today d = Ok name.
Proof.
  intros H. unfold get_day_name.
  destruct (not_stale_cases _ _ H) as [E|L].
  - rewrite E. eauto.
  - destruct (Cal.date_eqb d today); [eauto|].
    destruct (add_one_day_defined _ _ L) as (t & ->). simpl.
    destruct (Cal.date_eqb d t); eauto.
Qed.

End Dates.

Lemma date_eqb_eq (a b : Cal.date) : Cal.date_eqb a b = true <-> a = b.
Proof.
  split; [|intros ->; apply date_eqb_refl].
  unfold Cal.date_eqb. intros H.
  destruct (Cal.date_compare a b) eqn:C; try discriminate.
  apply date_compare_eq in C as (Ey & Em & Ed).
  destruct a as [ya ma da oka], b as [yb mb db okb]. simpl in *. subst.
  f_equal. apply Eqdep_dec.UIP_dec, bool_dec.
Qed.

Lemma isoformat_inj (a b : Cal.date) :
  Cal.isoformat a = Cal.isoformat b -> a = b.
Proof. intros H. now apply date_eqb_eq, isoformat_eq. Qed.

(* ===================================================================== *)
(** * Dictionaries and sorting by key *)
(* ===================================================================== *)

Section Dicts.

Context {V : Type}.
Implicit Types (d : dict V) (k : string) (v : V).

Lemma dict_get_update d k f k' :
  dict_get (dict_update d k f) k'
  = if String.eqb k k' then option_map f (dict_get d k') else dict_get d k'.
Proof.
  induction d as [|[k0 v0] d IH]; simpl.
  - now destruct (String.eqb k k').
  - destruct (String.eqb_spec k0 k) as [->|N]; simpl.
    + destruct (String.eqb_spec k k'); reflexivity.
    + destruct (String.eqb_spec k0 k') as [->|N'].
      * destruct (String.eqb_spec k k'); [congruence|reflexivity].
      * apply IH.
Qed.

Lemma dict_get_set d k v k' :
  dict_get (dict_set d k v) k'
  = if String.eqb k k' then Some v else dict_get d k'.
Proof.
  induction d as [|[k0 v0] d IH]; simpl.
  - reflexivity.
  - destruct (String.eqb_spec k0 k) as [->|N]; simpl.
    + destruct (String.eqb_spec k k'); reflexivity.
    + destruct (String.eqb_spec k0 k') as [->|N'].
      * destruct (String.eqb_spec k k'); [congruence|reflexivity].
      * apply IH.
Qed.

Lemma keys_update d k f : map fst (dict_update d k f) = map fst d.
Proof.
  induction d as [|[k0 v0] d IH]; simpl; [reflexivity|].
  destruct (String.eqb k0 k); simpl; congruence.
Qed.

Lemma dict_get_None d k : dict_get d k = None <-> ~ In k (map fst d).
Proof.
  induction d as [|[k0 v0] d IH]; simpl; [tauto|].
  destruct (String.eqb_spec k0 k) as [->|N].
  - split; [discriminate|tauto].
  - rewrite IH. tauto.
Qed.

Lemma keys_set_new d k v :
  dict_get d k = None -> map fst (dict_set d k v) = (map fst d ++ [k])%list.
Proof.
  induction d as [|[k0 v0] d IH]; simpl; [reflexivity|].
  destruct (String.eqb_spec k0 k) as [->|N]; [discriminate|].
  intros H. simpl. now rewrite IH.
Qed.

Lemma dict_get_In d k v :
  NoDup (map fst d) -> In (k, v) d -> dict_get d k = Some v.
Proof.
  induction d as [|[k0 v0] d IH]; simpl; [tauto|].
  intros ND [E|HIn].
  - injection E as -> ->. now rewrite String.eqb_refl.
  - inversion ND as [|? ? Hnot ND']; subst.
    destruct (String.eqb_spec k0 k) as [->|N].
    + exfalso. apply Hnot. now apply (in_map fst) in HIn.
    + now apply IH.
Qed.

End Dicts.

Section StringLt.

Lemma string_compare_lt_trans (a b c : string) :
  String.compare a b = Lt -> String.compare b c = Lt ->
  String.compare a c = Lt.
Proof.
  revert b c. induction a as [|x a IH]; intros [|y b] [|z c]; simpl;
    try congruence.
  unfold Ascii.compare.
  destruct (N.compare_spec (N_of_ascii x) (N_of_ascii y)) as [E|L|L];
    try discriminate.
  - rewrite E.
    destruct (N.compare_spec (N_of_ascii y) (N_of_ascii z)); try congruence.
    apply IH.
  - intros _.
    destruct (N.compare_spec (N_of_ascii y) (N_of_ascii z)) as [E'|L'|L'];
      try discriminate; intros _.
    + rewrite <- E'. now apply N.compare_lt_iff in L as ->.
    + assert (H : (N_of_ascii x < N_of_ascii z)%N) by lia.
      now apply N.compare_lt_iff in H as ->.
Qed.

Lemma string_ltb_trans (a b c : string) :
  String.ltb a b = true -> String.ltb b c = true -> String.ltb a c = true.
Proof.
  unfold String.ltb.
  destruct (String.compare a b) eqn:E1; try discriminate.
  destruct (String.compare b c) eqn:E2; try discriminate.
  now rewrite (string_compare_lt_trans a b c).
Qed.

Lemma string_ltb_irrefl (a : string) : String.ltb a a = false.
Proof. unfold String.ltb. now rewrite compare_refl. Qed.

(** Two different keys are ordered one way or the other. *)
Lemma string_ltb_total (a b : string) :
  a <> b -> String.ltb b a = false -> String.ltb a b = true.
Proof.
  unfold String.ltb. intros N. rewrite (String.compare_antisym a b).
  destruct (String.compare b a) eqn:E; simpl; try congruence.
  apply String.compare_eq_iff in E. congruence.
Qed.

End StringLt.

Section SortedByKey.

Context {V : Type}.

Lemma insert_by_key_perm (x : string * V) l :
  Permutation (insert_by_key x l) (x :: l).
Proof.
  induction l as [|y l IH]; simpl; [reflexivity|].
  destruct (String.ltb (fst y) (fst x)); [|reflexivity].
  rewrite IH. apply perm_swap.
Qed.

Lemma sorted_by_key_perm (l : list (string * V)) :
  Permutation (sorted_by_key l) l.
Proof.
  induction l as [|x l IH]; simpl; [reflexivity|].
  rewrite insert_by_key_perm. now constructor.
Qed.

Lemma insert_by_key_sorted (x : string * V) l :
  ~ In (fst x) (map fst l) ->
  StronglySorted key_lt l -> StronglySorted key_lt (insert_by_key x l).
Proof.
  induction l as [|y l IH]; simpl; intros Hnot Hs.
  - repeat constructor.
  - inversion Hs as [|? ? Hs' Hall]; subst.
    destruct (String.ltb (fst y) (fst x)) eqn:E.
    + constructor; [apply IH; tauto|].
      eapply Permutation_Forall; [symmetry; apply insert_by_key_perm|].
      now constructor.
    + assert (Hxy : key_lt x y)
        by (apply string_ltb_total; [intros Heq; apply Hnot; auto|exact E]).
      constructor; [assumption|].
      constructor; [assumption|].
      eapply Forall_impl; [|exact Hall].
      intros z Hz. unfold key_lt in *. eapply string_ltb_trans; eauto.
Qed.

(** Distinct keys come out of the sort strictly ascending. *)
Lemma sorted_by_key_sorted (l : list (string * V)) :
  NoDup (map fst l) -> StronglySorted key_lt (sorted_by_key l).
Proof.
  induction l as [|x l IH]; simpl; intros ND; [constructor|].
  inversion ND as [|? ? Hnot ND']; subst.
  apply insert_by_key_sorted; [|auto].
  intros HIn. apply Hnot.
  eapply Permutation_in; [|exact HIn].
  apply Permutation_map, sorted_by_key_perm.
Qed.

Lemma StronglySorted_app_inv {A} (R : A -> A -> Prop) (l1 l2 : list A) :
  StronglySorted R (l1 ++ l2) ->
  StronglySorted R l1
  /\ forall x y, In x l1 -> In y l2 -> R x y.
Proof.
  induction l1 as [|a l1 IH]; simpl; intros Hs.
  - split; [constructor|contradiction].
  - inversion Hs as [|? ? Hs' Hall]; subst.
    destruct (IH Hs') as (S1 & Hcross).
    rewrite Forall_app in Hall. destruct Hall as (H1 & H2).
    split; [now constructor|].
    intros x y [<-|Hx] Hy; [|auto].
    rewrite Forall_forall in H2. auto.
Qed.

End SortedByKey.

(* ===================================================================== *)
(** * The row loop *)
(* ===================================================================== *)

Section RowLoop.

Variable strptime : string -> result Cal.datetime.
Variable today : Cal.date.

Lemma on_day_app d (l1 l2 : list (Cal.datetime * pyval)) :
  on_day d (l1 ++ l2) = (on_day d l1 ++ on_day d l2)%list.
Proof. apply filter_app. Qed.

Lemma day_of_samples_snoc d b t kp name :
  b <> [] -> get_day_name today d = Ok name ->
  day_of_samples today d (b ++ [(t, kp)])
  = option_map (append_time (Cal.strftime_H_M t))
      (option_map (append_value kp) (day_of_samples today d b)).
Proof.
  intros Hb Hn. unfold day_of_samples. rewrite Hn.
  destruct b as [|s b]; [congruence|]. simpl.
  unfold append_time, append_value. simpl.
  now rewrite !map_app.
Qed.

(** One pass of the loop body keeps the dictionary in step with the
    samples seen, and it does not raise. *)
Lemma add_sample_spec fb samples t kp :
  buckets_of today samples fb ->
  Cal.date_ltb (Cal.dt_date t) today = false ->
  exists fb',
    add_sample today fb (Cal.dt_date t) t kp = Ok fb'
    /\ buckets_of today (samples ++ [(t, kp)]) fb'.
Proof.
  intros (ND & Hkeys & Hget) Hfresh.
  destruct (get_day_name_defined _ _ Hfresh) as (name & Hname).
  unfold add_sample, dict_mem.
  set (d := Cal.dt_date t) in *.
  pose proof (Hget d) as Hd.
  assert (Hon : forall d', on_day d' (samples ++ [(t, kp)])
            = (on_day d' samples
               ++ (if Cal.date_eqb d d' then [(t, kp)] else []))%list).
  { intros d'. rewrite on_day_app. reflexivity. }
  assert (Hkey : forall d', String.eqb (Cal.isoformat d) (Cal.isoformat d')
                            = Cal.date_eqb d d').
  { intros d'. destruct (String.eqb_spec (Cal.isoformat d) (Cal.isoformat d')) as [E|N].
    - symmetry. now apply isoformat_eq.
    - destruct (Cal.date_eqb d d') eqn:E; [|reflexivity].
      apply date_eqb_eq in E. congruence. }
  destruct (dict_get fb (Cal.isoformat d)) as [dy0|] eqn:G.
  - (* the day is already in the dictionary *)
    eexists. split; [reflexivity|].
    split; [now rewrite !keys_update|].
    split; [intros k; rewrite !keys_update; auto|].
    intros d'. rewrite !dict_get_update, Hkey, Hon.
    destruct (Cal.date_eqb d d') eqn:E.
    + apply date_eqb_eq in E. subst d'.
      rewrite Hget. apply eq_sym, (day_of_samples_snoc _ _ _ _ name); [|assumption].
      intros Hnil. rewrite Hnil in Hd. discriminate.
    + rewrite app_nil_r. apply Hget.
  - (* first sample of the day *)
    rewrite Hname. cbn [Py.bind].
    eexists. split; [reflexivity|].
    assert (Hempty : on_day d samples = []).
    { unfold day_of_samples in Hd. rewrite Hname in Hd.
      destruct (on_day d samples); [reflexivity|discriminate]. }
    split.
    { rewrite !keys_update, keys_set_new by assumption.
      apply NoDup_app; [assumption|repeat constructor; simpl; tauto|].
      intros k Hk [<-|[]]. now apply dict_get_None in G. }
    split.
    { intros k. rewrite !keys_update, keys_set_new by assumption.
      rewrite in_app_iff. intros [Hk|[<-|[]]]; eauto. }
    intros d'. rewrite !dict_get_update, dict_get_set, Hkey, Hon.
    destruct (Cal.date_eqb d d') eqn:E.
    + apply date_eqb_eq in E. subst d'. rewrite Hempty. simpl.
      unfold day_of_samples. now rewrite Hname.
    + rewrite app_nil_r. apply Hget.
Qed.

Lemma bucket_samples_spec samples : forall pre fb,
  buckets_of today pre fb ->
  Forall (fun s => Cal.date_ltb (Cal.dt_date (fst s)) today = false) samples ->
  exists fb',
    bucket_samples today samples fb = Ok fb'
    /\ buckets_of today (pre ++ samples) fb'.
Proof.
  induction samples as [|[t kp] samples IH]; intros pre fb Hb Hfresh; simpl.
  - exists fb. now rewrite app_nil_r.
  - inversion Hfresh as [|? ? Ht Hrest]; subst. simpl in Ht.
    destruct (add_sample_spec fb pre t kp Hb Ht) as (fb1 & -> & Hb1).
    cbn [Py.bind].
    destruct (IH _ _ Hb1 Hrest) as (fb' & -> & Hb').
    exists fb'. split; [reflexivity|].
    now rewrite <- app_assoc in Hb'.
Qed.

Lemma buckets_of_empty : buckets_of today [] [].
Proof. repeat split; [constructor|intros k []]. Qed.

(** The loop ends in the dictionary built from the retained samples. *)
Lemma bucket_rows_samples rows : forall fb,
  snd (bucket_rows strptime today rows fb)
  = bucket_samples today (retained strptime today rows) fb.
Proof.
  induction rows as [|r rows IH]; intros fb; simpl; [reflexivity|].
  destruct (parse_timestamp strptime (forecast_timestamp r)) as [t|e].
  - destruct (Cal.date_ltb (Cal.dt_date t) today); [apply IH|].
    simpl. destruct (add_sample _ _ _ _ _); simpl; [apply IH|reflexivity].
  - specialize (IH fb).
    destruct (bucket_rows strptime today rows fb). exact IH.
Qed.

Lemma retained_fresh rows :
  Forall (fun s => Cal.date_ltb (Cal.dt_date (fst s)) today = false)
         (retained strptime today rows).
Proof.
  induction rows as [|r rows IH]; simpl; [constructor|].
  destruct (parse_timestamp strptime (forecast_timestamp r)) as [t|e];
    [|assumption].
  destruct (Cal.date_ltb (Cal.dt_date t) today) eqn:E; [assumption|].
  now constructor.
Qed.

(** Among the retained samples, those of a day on or after today are
    all the rows of that day. *)
Lemma on_day_retained d rows :
  Cal.date_ltb d today = false -> on_day d (retained strptime today rows) = samples_on strptime d rows.
Proof.
  intros Hd. induction rows as [|r rows IH]; simpl; [reflexivity|].
  destruct (parse_timestamp strptime (forecast_timestamp r)) as [t|e];
    [|assumption].
  destruct (Cal.date_ltb (Cal.dt_date t) today) eqn:E.
  - destruct (Cal.date_eqb (Cal.dt_date t) d) eqn:E'; [|assumption].
    apply date_eqb_eq in E'. congruence.
  - unfold on_day in *. simpl.
    destruct (Cal.date_eqb (Cal.dt_date t) d); [f_equal|]; assumption.
Qed.

Lemma bucket_rows_spec rows :
  exists fb,
    snd (bucket_rows strptime today rows []) = Ok fb
    /\ buckets_of today (retained strptime today rows) fb.
Proof.
  rewrite bucket_rows_samples.
  apply (bucket_samples_spec (retained strptime today rows) [] []).
  - apply buckets_of_empty.
  - apply retained_fresh.
Qed.

End RowLoop.

(* ===================================================================== *)
(** * The maximum of a series *)
(* ===================================================================== *)

Section Maximum.


Lemma not_nan_ordered a b x y :
  Py.num_of a = Some x -> Py.num_of b = Some y ->
  Py.is_nan a = false -> Py.is_nan b = false ->
  exists c, Py.xcompare x y = Some c.
Proof.
  unfold Py.is_nan. intros -> -> Ha Hb.
  destruct x, y; simpl; try discriminate; eauto.
Qed.


Lemma le_trans a b c :
  Py.is_number b = true -> Py.is_number c = true ->
  Py.le a b = Ok true -> Py.le b c = Ok true -> Py.le a c = Ok true.
Proof.
  intros Hb Hc Hab Hbc.
  destruct (richcmp_number_r _ _ _ _ Hb Hab) as (x & y & Hx & Hy & Hr).
  destruct (richcmp_number_r _ _ _ _ Hc Hbc) as (y' & z & Hy' & Hz & Hr').
  rewrite Hy in Hy'. injection Hy' as <-.
  unfold Py.le. rewrite (richcmp_numbers _ _ _ _ _ Hx Hz).
  f_equal. eapply xle_trans; eauto.
Qed.

Lemma le_refl a :
  Py.is_number a = true -> Py.is_nan a = false -> Py.le a a = Ok true.
Proof.
  intros Hn Hnan. destruct (number_num _ Hn) as (x & Hx).
  unfold Py.le. rewrite (richcmp_numbers _ _ _ _ _ Hx Hx). f_equal.
  unfold Py.is_nan in Hnan. rewrite Hx in Hnan.
  destruct x; simpl; try reflexivity; try discriminate.
  unfold Py.fin_compare. now rewrite Z.compare_refl.
Qed.

(** [item > cur] decides which of the two is at most the other. *)
Lemma gt_le item cur b :
  Py.is_number cur = true ->
  Py.is_nan item = false -> Py.is_nan cur = false ->
  Py.gt item cur = Ok b ->
  if b then Py.le cur item = Ok true else Py.le item cur = Ok true.
Proof.
  intros Hc Hni Hnc Hgt.
  destruct (richcmp_number_r _ _ _ _ Hc Hgt) as (x & y & Hx & Hy & Hr).
  destruct (not_nan_ordered _ _ _ _ Hx Hy Hni Hnc) as (c & Hcmp).
  unfold Py.le.
  rewrite (richcmp_numbers _ _ _ _ _ Hx Hy), (richcmp_numbers _ _ _ _ _ Hy Hx).
  rewrite (xcompare_antisym x y), Hcmp in *. subst b.
  destruct c; reflexivity.
Qed.

Lemma max_from_numbers rest : forall cur,
  Py.is_number cur = true -> Forall (fun v => Py.is_number v = true) rest ->
  exists m, Py.max_from cur rest = Ok m /\ Py.is_number m = true.
Proof.
  induction rest as [|item rest IH]; intros cur Hc Hr; simpl; [eauto|].
  inversion Hr as [|? ? Hi Hr']; subst.
  destruct (number_num _ Hc) as (y & Hy), (number_num _ Hi) as (x & Hx).
  unfold Py.gt. rewrite (richcmp_numbers _ _ _ _ _ Hx Hy). cbn [Py.bind].
  apply IH; [|assumption].
  now destruct (Py.op_holds _ _).
Qed.

(** When the maximum is a number, the whole series is numbers, the
    maximum is one of them, and, no NaN being present, every value is at
    most the maximum. *)
Lemma max_from_spec rest : forall cur m,
  Py.max_from cur rest = Ok m -> Py.is_number m = true ->
  Forall (fun v => Py.is_number v = true) (cur :: rest)
  /\ In m (cur :: rest)
  /\ (Forall (fun v => Py.is_nan v = false) (cur :: rest) ->
      Forall (fun v => Py.le v m = Ok true) (cur :: rest)).
Proof.
  induction rest as [|item rest IH]; intros cur m; simpl.
  - intros [= ->] Hm. repeat split; auto.
    intros Hnan. inversion Hnan; subst. constructor; [|constructor].
    now apply le_refl.
  - destruct (Py.gt item cur) as [b|] eqn:G; [|discriminate]. cbn [Py.bind].
    intros Hmax Hm.
    destruct (IH _ _ Hmax Hm) as (Hnum & HIn & Hle).
    pose proof (richcmp_same_kind _ _ _ _ G) as Hkind.
    inversion Hnum as [|? ? Hnext Hrest]; subst.
    assert (Hboth : Py.is_number item = true /\ Py.is_number cur = true)
      by (destruct b; split; congruence).
    destruct Hboth as (Hi & Hc).
    split; [auto|]. split; [destruct b; simpl in *; tauto|].
    intros Hnan.
    inversion Hnan as [|? ? Hnc Hnan']; subst.
    inversion Hnan' as [|? ? Hni Hnr]; subst.
    pose proof (gt_le _ _ _ Hc Hni Hnc G) as Hord.
    assert (Hle' : Forall (fun v => Py.le v m = Ok true)
                          ((if b then item else cur) :: rest))
      by (apply Hle; constructor; [destruct b|]; assumption).
    inversion Hle' as [|? ? Hnm Hrm]; subst.
    assert (Hnn : Py.is_number (if b then item else cur) = true)
      by (destruct b; assumption).
    destruct b.
    + constructor; [eapply le_trans; eauto|]. now constructor.
    + constructor; [assumption|].
      constructor; [eapply le_trans; eauto|assumption].
Qed.



End Maximum.

(* ===================================================================== *)
(** * The levels of the days *)
(* ===================================================================== *)

Section DayLevels.

Lemma mapM_Forall2 {A B} (f : A -> result B) l : forall l',
  Py.mapM f l = Ok l' -> Forall2 (fun a b => f a = Ok b) l l'.
Proof.
  induction l as [|a l IH]; simpl; intros l'.
  - intros [= <-]. constructor.
  - destruct (f a) as [b|] eqn:F; [|discriminate]. cbn [Py.bind].
    destruct (Py.mapM f l) as [bs|]; [|discriminate]. cbn [Py.bind].
    intros [= <-]. constructor; auto.
Qed.

Lemma mapM_total {A B} (f : A -> result B) l :
  Forall (fun a => exists b, f a = Ok b) l -> exists l', Py.mapM f l = Ok l'.
Proof.
  induction 1 as [|a l (b & Hb) _ (bs & Hbs)]; simpl; [eauto|].
  rewrite Hb, Hbs. simpl. eauto.
Qed.

(** The level pass writes [stormLevel] and nothing else. *)
Lemma storm_level_of_day_spec dy dy' :
  storm_level_of_day dy = Ok dy' ->
  day dy' = day dy /\ date dy' = date dy /\ data dy' = data dy
  /\ level_of_max dy'.
Proof.
  unfold storm_level_of_day, level_of_max.
  destruct (values (data dy)) as [|v vs] eqn:E.
  - intros [= <-]. simpl. now rewrite E.
  - destruct (Py.max (v :: vs)) as [m|] eqn:M; [|discriminate]. cbn [Py.bind].
    destruct (get_storm_level m) as [lvl|] eqn:L; [|discriminate]. cbn [Py.bind].
    intros [= <-]. simpl. rewrite E.
    repeat split; try reflexivity. exists m. now split.
Qed.

Lemma storm_level_of_day_total dy :
  Forall (fun v => Py.is_number v = true) (values (data dy)) ->
  exists dy', storm_level_of_day dy = Ok dy'.
Proof.
  unfold storm_level_of_day. intros Hn.
  destruct (values (data dy)) as [|v vs]; [eauto|].
  inversion Hn as [|? ? Hv Hvs]; subst.
  destruct (max_from_numbers vs v Hv Hvs) as (m & Hm & Hnum).
  simpl. rewrite Hm. cbn [Py.bind].
  destruct (get_storm_level_total m Hnum) as (lvl & ->). simpl. eauto.
Qed.

End DayLevels.

(* ===================================================================== *)
(** * Sorting the days and keeping three *)
(* ===================================================================== *)

Section Selection.

Variable strptime : string -> result Cal.datetime.
Variable today : Cal.date.

Lemma isoformat_ltb (a b : Cal.date) :
  String.ltb (Cal.isoformat a) (Cal.isoformat b) = Cal.date_ltb a b.
Proof. unfold String.ltb, Cal.date_ltb. now rewrite isoformat_compare. Qed.

Lemma sorted_keys_dates {V} (sel : list (string * V)) (ds : list Cal.date) :
  map Cal.isoformat ds = map fst sel ->
  StronglySorted key_lt sel ->
  StronglySorted (fun a b => Cal.date_ltb a b = true) ds.
Proof.
  revert sel. induction ds as [|d ds IH]; intros [|[k v] sel]; simpl;
    try discriminate; intros E Hs; [constructor|].
  injection E as Ek E.
  inversion Hs as [|? ? Hs' Hall]; subst.
  constructor; [eapply IH; eauto|].
  rewrite Forall_forall in *. intros d' Hd'.
  assert (Hk : In (Cal.isoformat d') (map fst sel))
    by (rewrite <- E; now apply in_map).
  apply in_map_iff in Hk as ([k' v'] & Hk' & HIn). simpl in Hk'. subst k'.
  specialize (Hall _ HIn). unfold key_lt in Hall. simpl in Hall.
  now rewrite isoformat_ltb in Hall.
Qed.

Lemma keys_to_dates {V} (P : Cal.date -> V -> Prop) (sel : list (string * V)) :
  (forall k v, In (k, v) sel -> exists d, k = Cal.isoformat d /\ P d v) ->
  exists ds, map Cal.isoformat ds = map fst sel /\ Forall2 P ds (map snd sel).
Proof.
  induction sel as [|[k v] sel IH]; intros H; simpl.
  - exists []. split; [reflexivity|constructor].
  - destruct (H k v) as (d & -> & Hd); [now left|].
    destruct IH as (ds & E & F); [intros; apply H; now right|].
    exists (d :: ds). simpl. split; [congruence|now constructor].
Qed.

(** An entry of the dictionary is the aggregation of a day on or after
    today. *)
Lemma bucket_entry rows fb k dy :
  buckets_of today (retained strptime today rows) fb ->
  In (k, dy) fb ->
  exists d, k = Cal.isoformat d
            /\ (aggregates strptime today rows d dy
                /\ stormLevel dy = CALM
                /\ Cal.date_ltb d today = false).
Proof.
  intros (ND & Hkeys & Hget) HIn.
  destruct (Hkeys k) as (d & ->); [now apply (in_map fst) in HIn|].
  exists d. split; [reflexivity|].
  pose proof (dict_get_In _ _ _ ND HIn) as G. rewrite Hget in G.
  unfold day_of_samples in G.
  destruct (on_day d (retained strptime today rows)) as [|s b] eqn:Hon;
    [discriminate|].
  assert (Hfresh : Cal.date_ltb d today = false).
  { assert (Hs : In s (on_day d (retained strptime today rows)))
      by (rewrite Hon; now left).
    apply filter_In in Hs as (Hs & Hd). apply date_eqb_eq in Hd. subst d.
    pose proof (retained_fresh strptime today rows) as F.
    rewrite Forall_forall in F. now apply F. }
  destruct (get_day_name today d) as [name|] eqn:Hname; [|discriminate].
  injection G as <-. unfold aggregates.
  rewrite <- (on_day_retained strptime today d rows Hfresh), Hon.
  repeat split; simpl; auto. discriminate.
Qed.

(** A retained sample has its day in the dictionary. *)
Lemma retained_key rows fb s :
  buckets_of today (retained strptime today rows) fb ->
  In s (retained strptime today rows) ->
  In (Cal.isoformat (Cal.dt_date (fst s))) (map fst fb).
Proof.
  intros (ND & Hkeys & Hget) Hs.
  destruct (in_dec string_dec (Cal.isoformat (Cal.dt_date (fst s))) (map fst fb))
    as [|Hnot]; [assumption|exfalso].
  apply dict_get_None in Hnot. rewrite Hget in Hnot.
  pose proof (retained_fresh strptime today rows) as F.
  rewrite Forall_forall in F. specialize (F _ Hs).
  destruct (get_day_name_defined _ _ F) as (name & Hname).
  unfold day_of_samples in Hnot. rewrite Hname in Hnot.
  assert (Hon : In s (on_day (Cal.dt_date (fst s)) (retained strptime today rows)))
    by (apply filter_In; split; [assumption|apply date_eqb_refl]).
  destruct (on_day _ _); [contradiction|discriminate].
Qed.

Lemma firstn_short {A} n (l : list A) :
  skipn n l <> [] -> List.length (firstn n l) = n.
Proof.
  intros H. apply firstn_length_le.
  destruct (Nat.le_gt_cases n (List.length l)) as [|Hlt]; [assumption|].
  exfalso. apply H, skipn_all2. lia.
Qed.

(** The days kept: the first three of the days that have a retained
    sample, in calendar order. *)
Lemma selection_spec rows fb :
  buckets_of today (retained strptime today rows) fb ->
  exists ds,
    Forall2 (fun d dy => aggregates strptime today rows d dy
                         /\ stormLevel dy = CALM
                         /\ Cal.date_ltb d today = false)
            ds (map snd (firstn 3 (sorted_by_key fb)))
    /\ StronglySorted (fun a b => Cal.date_ltb a b = true) ds
    /\ (List.length ds <= 3)%nat
    /\ (forall s, In s (retained strptime today rows) ->
          In (Cal.dt_date (fst s)) ds
          \/ (List.length ds = 3%nat
              /\ Forall (fun d => Cal.date_ltb d (Cal.dt_date (fst s)) = true)
                        ds)).
Proof.
  intros Hb.
  pose proof Hb as (ND & Hkeys & Hget).
  pose proof (sorted_by_key_sorted fb ND) as Hs.
  pose proof (sorted_by_key_perm fb) as Hp.
  set (L := sorted_by_key fb) in *.
  rewrite <- (firstn_skipn 3 L) in Hs.
  apply StronglySorted_app_inv in Hs as (Hsel & Hcross).
  destruct (keys_to_dates
              (fun d dy => aggregates strptime today rows d dy
                           /\ stormLevel dy = CALM
                           /\ Cal.date_ltb d today = false)
              (firstn 3 L)) as (ds & Eks & F).
  { intros k dy HIn. apply (bucket_entry rows fb); [assumption|].
    eapply Permutation_in; [exact Hp|].
    rewrite <- (firstn_skipn 3 L). apply in_or_app. now left. }
  assert (Hlen : List.length ds = List.length (firstn 3 L)).
  { rewrite <- (length_map Cal.isoformat ds), Eks. apply length_map. }
  exists ds. split; [assumption|].
  split; [eapply sorted_keys_dates; eauto|].
  split; [rewrite Hlen, length_firstn; lia|].
  intros s Hs.
  pose proof (retained_key rows fb s Hb Hs) as Hk.
  assert (HkL : In (Cal.isoformat (Cal.dt_date (fst s))) (map fst L)).
  { eapply Permutation_in; [|exact Hk].
    apply Permutation_map. now symmetry. }
  rewrite <- (firstn_skipn 3 L), map_app, in_app_iff in HkL.
  destruct HkL as [H1|H2].
  - left. rewrite <- Eks in H1.
    apply in_map_iff in H1 as (d & Ed & Hd).
    apply isoformat_inj in Ed. now subst.
  - right.
    apply in_map_iff in H2 as ([k v] & Ek & HIn). simpl in Ek. subst k.
    split.
    { rewrite Hlen. apply firstn_short. intros E. now rewrite E in HIn. }
    rewrite Forall_forall. intros d Hd.
    assert (Hdk : In (Cal.isoformat d) (map fst (firstn 3 L)))
      by (rewrite <- Eks; now apply in_map).
    apply in_map_iff in Hdk as ([k' v'] & Ek' & HIn'). simpl in Ek'. subst k'.
    specialize (Hcross _ _ HIn' HIn). unfold key_lt in Hcross.
    simpl in Hcross. now rewrite isoformat_ltb in Hcross.
Qed.

End Selection.

(* ===================================================================== *)
(** * [process_real_forecast_data] *)
(* ===================================================================== *)

Section Process.

Variable strptime : string -> result Cal.datetime.
Variable today : Cal.date.

Lemma current_storm_first (days_list : list day_forecast) :
  Forall level_of_max days_list ->
  current_storm_of days_list
  = Ok (match days_list with d :: _ => stormLevel d | [] => CALM end).
Proof.
  intros H. destruct days_list as [|d l]; [reflexivity|].
  inversion H as [|? ? Hd _]; subst.
  unfold current_storm_of, level_of_max in *.
  destruct (values (data d)) as [|v vs]; [now rewrite Hd|].
  destruct Hd as (m & -> & Hm). exact Hm.
Qed.

Lemma levels_preserve {P : Cal.date -> day_forecast -> Prop}
    (ds : list Cal.date) (l l' : list day_forecast) :
  (forall d dy dy', P d dy -> day dy' = day dy -> date dy' = date dy ->
                    data dy' = data dy -> P d dy') ->
  Forall2 P ds l ->
  Forall2 (fun a b => storm_level_of_day a = Ok b) l l' ->
  Forall2 P ds l' /\ Forall level_of_max l'.
Proof.
  intros HP F. revert l'.
  induction F as [|d dy ds l Hd F IH]; intros l' M; inversion M; subst.
  - split; constructor.
  - match goal with H : storm_level_of_day _ = _ |- _ =>
      apply storm_level_of_day_spec in H as (E1 & E2 & E3 & Hl) end.
    destruct (IH _ ltac:(eassumption)) as (F' & L').
    split; constructor; eauto.
Qed.

Lemma aggregates_fields rows d dy dy' :
  aggregates strptime today rows d dy ->
  day dy' = day dy -> date dy' = date dy -> data dy' = data dy ->
  aggregates strptime today rows d dy'.
Proof.
  unfold aggregates. intros (H1 & H2 & H3 & H4 & H5) -> -> ->. auto.
Qed.

(** What a returned response is, in terms of the rows. *)
Lemma process_spec rows resp :
  snd (process_real_forecast_data strptime today rows) = Ok resp ->
  exists ds,
    Forall2 (fun d dy => aggregates strptime today rows d dy
                         /\ Cal.date_ltb d today = false)
            ds (days resp)
    /\ StronglySorted (fun a b => Cal.date_ltb a b = true) ds
    /\ (List.length ds <= 3)%nat
    /\ (forall s, In s (retained strptime today rows) ->
          In (Cal.dt_date (fst s)) ds
          \/ (List.length ds = 3%nat
              /\ Forall (fun d => Cal.date_ltb d (Cal.dt_date (fst s)) = true)
                        ds))
    /\ Forall level_of_max (days resp)
    /\ currentStorm resp
       = match days resp with d :: _ => stormLevel d | [] => CALM end
    /\ warning resp = get_warning_message (currentStorm resp)
    /\ location resp = MOSCOW.
Proof.
  unfold process_real_forecast_data.
  destruct (bucket_rows_spec strptime today rows) as (fb & Hfb & Hb).
  destruct (bucket_rows strptime today rows []) as [out r].
  simpl in Hfb. subst r.
  destruct (selection_spec strptime today rows fb Hb)
    as (ds & F & Hs & Hlen & Hall).
  destruct (Py.mapM storm_level_of_day _) as [days_list|] eqn:M;
    [|discriminate]. cbn [Py.bind].
  apply mapM_Forall2 in M.
  destruct (levels_preserve
              (P := fun d dy => aggregates strptime today rows d dy
                                /\ Cal.date_ltb d today = false)
              ds (map snd (firstn 3 (sorted_by_key fb))) days_list)
    as (F' & L); try assumption.
  { intros d dy dy' (A & Fr) E1 E2 E3. split; [|assumption].
    eapply aggregates_fields; eauto. }
  { eapply Forall2_impl; [|exact F]. simpl. tauto. }
  rewrite (current_storm_first days_list L). cbn [Py.bind].
  intros [= <-]. exists ds. simpl. repeat split; auto.
Qed.

Lemma retained_numbers rows :
  forallb (well_formed_row strptime) rows = true ->
  Forall (fun s => Py.is_number (snd s) = true) (retained strptime today rows).
Proof.
  induction rows as [|r rows IH]; simpl; [constructor|].
  rewrite andb_true_iff. unfold well_formed_row at 1. intros (Hr & Hrows).
  destruct (parse_timestamp strptime (forecast_timestamp r)) as [t|e];
    [|discriminate].
  destruct (Cal.date_ltb (Cal.dt_date t) today); [auto|].
  constructor; auto.
Qed.

(** With numbers in every retained row, the function returns. *)
Lemma process_total rows :
  Forall (fun s => Py.is_number (snd s) = true) (retained strptime today rows) ->
  exists resp, snd (process_real_forecast_data strptime today rows) = Ok resp.
Proof.
  intros Hnum. unfold process_real_forecast_data.
  destruct (bucket_rows_spec strptime today rows) as (fb & Hfb & Hb).
  destruct (bucket_rows strptime today rows []) as [out r].
  simpl in Hfb. subst r.
  destruct (selection_spec strptime today rows fb Hb)
    as (ds & F & Hs & Hlen & Hall).
  destruct (mapM_total storm_level_of_day
              (map snd (firstn 3 (sorted_by_key fb)))) as (days_list & M).
  { clear -F Hnum. induction F as [|d dy ds l (A & _ & Fr) F IH];
      constructor; [|assumption].
    apply storm_level_of_day_total.
    destruct A as (_ & -> & _).
    rewrite <- (on_day_retained strptime today d rows Fr).
    apply Forall_map. unfold on_day.
    rewrite Forall_forall in *. intros s Hs.
    apply filter_In in Hs as (Hs & _). auto. }
  rewrite M. cbn [Py.bind].
  apply mapM_Forall2 in M.
  destruct (levels_preserve (P := fun _ _ => True)
              ds (map snd (firstn 3 (sorted_by_key fb))) days_list)
    as (_ & L); auto.
  { eapply Forall2_impl; [|exact F]. auto. }
  rewrite (current_storm_first days_list L). simpl. eauto.
Qed.

(** The response depends on the rows only through what the loop
    retains. *)
Lemma process_retained rows rows' :
  retained strptime today rows = retained strptime today rows' ->
  snd (process_real_forecast_data strptime today rows)
  = snd (process_real_forecast_data strptime today rows').
Proof.
  intros E. unfold process_real_forecast_data.
  pose proof (bucket_rows_samples strptime today rows []) as H.
  pose proof (bucket_rows_samples strptime today rows' []) as H'.
  rewrite <- E in H'.
  destruct (bucket_rows strptime today rows []) as [out r].
  destruct (bucket_rows strptime today rows' []) as [out' r'].
  simpl in H, H'. rewrite H, H'.
  destruct (bucket_samples today _ []) as [fb|]; [|reflexivity].
  destruct (_ <- Py.mapM _ _ ;; _) as [[dl cs]|]; reflexivity.
Qed.

Lemma retained_app rows1 rows2 :
  retained strptime today (rows1 ++ rows2)
  = (retained strptime today rows1 ++ retained strptime today rows2)%list.
Proof.
  induction rows1 as [|r rows1 IH]; simpl; [reflexivity|].
  destruct (parse_timestamp strptime (forecast_timestamp r)) as [t|e];
    [|assumption].
  destruct (Cal.date_ltb (Cal.dt_date t) today); [assumption|].
  simpl. now rewrite IH.
Qed.

(** A row the loop skips leaves no trace in the response. *)
Lemma process_skip rows1 r rows2 :
  retained strptime today [r] = [] ->
  snd (process_real_forecast_data strptime today (rows1 ++ r :: rows2))
  = snd (process_real_forecast_data strptime today (rows1 ++ rows2)).
Proof.
  intros H. apply process_retained.
  change (r :: rows2) with ([r] ++ rows2)%list.
  now rewrite !retained_app, H.
Qed.

Lemma add_sample_defined fb d t kp :
  Cal.date_ltb d today = false -> exists fb', add_sample today fb d t kp = Ok fb'.
Proof.
  intros H. unfold add_sample.
  destruct (dict_mem _ _); simpl; [eauto|].
  destruct (get_day_name_defined _ _ H) as (name & ->). simpl. eauto.
Qed.

(** Every timestamp that fails to parse is reported. *)
Lemma parse_errors_printed rows : forall fb r e,
  In r rows ->
  parse_timestamp strptime (forecast_timestamp r) = Raise e ->
  In (PrintParseError (forecast_timestamp r) e)
     (fst (bucket_rows strptime today rows fb)).
Proof.
  induction rows as [|r0 rows IH]; intros fb r e HIn Hr; [contradiction|].
  simpl.
  destruct (parse_timestamp strptime (forecast_timestamp r0)) as [t|e0] eqn:P.
  - destruct HIn as [->|HIn]; [congruence|].
    destruct (Cal.date_ltb (Cal.dt_date t) today) eqn:S; [eauto|].
    destruct (add_sample_defined fb (Cal.dt_date t) t (kp_index r0) S)
      as (fb' & ->).
    eauto.
  - specialize (IH fb r e).
    destruct (bucket_rows strptime today rows fb) as [out res]. simpl in *.
    destruct HIn as [->|HIn]; [left; congruence|right; auto].
Qed.

Lemma process_prints rows ev :
  In ev (fst (bucket_rows strptime today rows [])) ->
  In ev (fst (process_real_forecast_data strptime today rows)).
Proof.
  unfold process_real_forecast_data.
  destruct (bucket_rows strptime today rows []) as [out r]. simpl.
  intros H. destruct r as [fb|]; [|now right].
  destruct (_ <- Py.mapM _ _ ;; _) as [[dl cs]|]; simpl; [|now right].
  right. apply in_or_app. now left.
Qed.

Lemma StronglySorted_NoDup (ds : list Cal.date) :
  StronglySorted (fun a b => Cal.date_ltb a b = true) ds -> NoDup ds.
Proof.
  induction 1 as [|d ds Hs IH Hall]; constructor; [|assumption].
  intros HIn. rewrite Forall_forall in Hall. specialize (Hall _ HIn).
  now rewrite date_ltb_irrefl in Hall.
Qed.

End Process.

(* ===================================================================== *)
(** * The forecast built from rows *)
(* ===================================================================== *)

Section ForecastClaims.

Variable strptime : string -> result Cal.datetime.
Variable today : Cal.date.

(** C3: for well-formed rows, [process_real_forecast_data] returns, with
    at most three days; the returned days are the aggregations of
    calendar dates that are strictly ascending, hence without
    duplicates, and they are the earliest dates that have a retained
    sample: a retained sample's date is among them, or three days are
    returned and all three are earlier. *)
Theorem forecast_three_days_ascending (rows : list row) :
  forallb (well_formed_row strptime) rows = true ->
  exists resp ds,
    snd (process_real_forecast_data strptime today rows) = Ok resp
    /\ (List.length (days resp) <= 3)%nat
    /\ Forall2 (aggregates strptime today rows) ds (days resp)
    /\ StronglySorted (fun a b => Cal.date_ltb a b = true) ds
    /\ NoDup ds
    /\ (forall s, In s (retained strptime today rows) ->
          In (Cal.dt_date (fst s)) ds
          \/ (List.length ds = 3%nat
              /\ Forall (fun d => Cal.date_ltb d (Cal.dt_date (fst s)) = true)
                        ds)).
Proof.
  intros Hwf.
  destruct (process_total strptime today rows
              (retained_numbers strptime today rows Hwf)) as (resp & Hresp).
  destruct (process_spec strptime today rows resp Hresp)
    as (ds & F & Hs & Hlen & Hall & _).
  exists resp, ds. split; [assumption|].
  split; [rewrite <- (Forall2_length F); assumption|].
  split; [eapply Forall2_impl; [|exact F]; simpl; tauto|].
  split; [assumption|].
  split; [now apply StronglySorted_NoDup|assumption].
Qed.

(** C4: a row dated strictly before today is dropped by the loop before
    the days are formed: the response is the one computed from the input
    without that row, and every returned day is the aggregation, over the
    other rows, of one calendar date that is not before today; so the
    row is in no returned series. *)
Theorem stale_rows_discarded (rows1 rows2 : list row) (r : row) :
  stale strptime today r = true ->
  snd (process_real_forecast_data strptime today (rows1 ++ r :: rows2))
  = snd (process_real_forecast_data strptime today (rows1 ++ rows2))
  /\ forall resp,
       snd (process_real_forecast_data strptime today (rows1 ++ r :: rows2))
       = Ok resp ->
       exists ds,
         Forall2 (fun d dy =>
                    aggregates strptime today (rows1 ++ rows2) d dy
                    /\ Cal.date_ltb d today = false)
                 ds (days resp).
Proof.
  intros Hstale.
  assert (Hskip : retained strptime today [r] = []).
  { unfold stale in Hstale. simpl.
    destruct (parse_timestamp strptime (forecast_timestamp r));
      [now rewrite Hstale|reflexivity]. }
  pose proof (process_skip strptime today rows1 r rows2 Hskip) as E.
  split; [exact E|].
  intros resp Hresp. rewrite E in Hresp.
  destruct (process_spec strptime today _ resp Hresp) as (ds & F & _).
  now exists ds.
Qed.

(** C6: the level of every returned day is the classification of a
    value of its series that, no NaN being in the series, is at least
    every value of the series: the maximum, not the average; the series
    is that of the rows of the day.  The level pass gives a day with an
    empty series the calmest level. *)
Theorem day_level_is_level_of_max (rows : list row) (resp : forecast_response) :
  snd (process_real_forecast_data strptime today rows) = Ok resp ->
  (exists ds,
     Forall2 (fun d dy =>
                aggregates strptime today rows d dy
                /\ exists max_kp,
                     In max_kp (values (data dy))
                     /\ get_storm_level max_kp = Ok (stormLevel dy)
                     /\ (Forall (fun v => Py.is_nan v = false)
                                (values (data dy)) ->
                         Forall (fun v => Py.le v max_kp = Ok true)
                                (values (data dy))))
             ds (days resp))
  /\ (forall name dt level tms,
        storm_level_of_day (mkday name dt level (mkdata [] tms))
        = Ok (mkday name dt CALM (mkdata [] tms))).
Proof.
  intros Hresp. split; [|reflexivity].
  destruct (process_spec strptime today rows resp Hresp)
    as (ds & F & _ & _ & _ & L & _).
  exists ds. revert L.
  induction F as [|d dy ds l (A & _) F IH]; intros L; [constructor|].
  inversion L as [|? ? Hdy L']; subst.
  constructor; [|auto].
  split; [assumption|].
  unfold level_of_max in Hdy.
  destruct (values (data dy)) as [|v vs] eqn:E.
  { exfalso. destruct A as (N & Ev & _). rewrite E in Ev.
    apply N. symmetry in Ev. now apply map_eq_nil in Ev. }
  destruct Hdy as (m & Hmax & Hlvl).
  pose proof (get_storm_level_number _ _ Hlvl) as Hnum.
  destruct (max_from_spec vs v m Hmax Hnum) as (_ & HIn & Hle).
  exists m. auto.
Qed.

(** C7: a row whose timestamp does not parse is skipped with a printed
    diagnostic, and the loop goes on: the response is the one computed
    from the remaining rows. *)
Theorem malformed_timestamp_skipped (rows1 rows2 : list row) (r : row) (e : exn) :
  parse_timestamp strptime (forecast_timestamp r) = Raise e ->
  snd (process_real_forecast_data strptime today (rows1 ++ r :: rows2))
  = snd (process_real_forecast_data strptime today (rows1 ++ rows2))
  /\ In (PrintParseError (forecast_timestamp r) e)
        (fst (process_real_forecast_data strptime today (rows1 ++ r :: rows2))).
Proof.
  intros Hbad. split.
  - apply process_skip. simpl. now rewrite Hbad.
  - apply process_prints, parse_errors_printed; [|assumption].
    apply in_or_app. right. now left.
Qed.

(** C10: in every returned day the list of values and the list of times
    have the same length. *)
Theorem series_lengths_agree (rows : list row) (resp : forecast_response) :
  snd (process_real_forecast_data strptime today rows) = Ok resp ->
  Forall (fun dy => List.length (values (data dy))
                    = List.length (times (data dy)))
         (days resp).
Proof.
  intros Hresp.
  destruct (process_spec strptime today rows resp Hresp) as (ds & F & _).
  induction F as [|d dy ds l ((_ & Ev & Et & _) & _) F IH]; constructor;
    [|assumption].
  now rewrite Ev, Et, !length_map.
Qed.

End ForecastClaims.

Lemma forecast_three_days_ascending_witness :
  forallb (well_formed_row Cal.strptime_fixed) sample_rows = true
  /\ exists resp ds,
       snd (process_real_forecast_data Cal.strptime_fixed sample_today sample_rows)
       = Ok resp
       /\ (List.length (days resp) <= 3)%nat
       /\ Forall2 (aggregates Cal.strptime_fixed sample_today sample_rows)
                  ds (days resp)
       /\ StronglySorted (fun a b => Cal.date_ltb a b = true) ds
       /\ NoDup ds
       /\ (forall s,
             In s (retained Cal.strptime_fixed sample_today sample_rows) ->
             In (Cal.dt_date (fst s)) ds
             \/ (List.length ds = 3%nat
                 /\ Forall (fun d => Cal.date_ltb d (Cal.dt_date (fst s)) = true)
                           ds)).
Proof.
  split; [vm_compute; reflexivity|].
  apply (forecast_three_days_ascending Cal.strptime_fixed sample_today sample_rows).
  vm_compute; reflexivity.
Defined.

Lemma stale_rows_discarded_witness :
  stale Cal.strptime_fixed sample_today stale_row = true
  /\ snd (process_real_forecast_data Cal.strptime_fixed sample_today
            ([sample_row "2026-11-03 12:00:00" float_6_2] ++ stale_row :: sample_rows))
     = snd (process_real_forecast_data Cal.strptime_fixed sample_today
              ([sample_row "2026-11-03 12:00:00" float_6_2] ++ sample_rows)).
Proof.
  split; [vm_compute; reflexivity|].
  refine (proj1 (stale_rows_discarded Cal.strptime_fixed sample_today
                   [sample_row "2026-11-03 12:00:00" float_6_2] sample_rows
                   stale_row _)).
  vm_compute; reflexivity.
Defined.

Lemma day_level_is_level_of_max_witness :
  exists resp,
    snd (process_real_forecast_data Cal.strptime_fixed sample_today peak_rows)
    = Ok resp
    /\ map stormLevel (days resp) = [EXTREME]
    /\ exists ds,
         Forall2 (fun d dy =>
                    aggregates Cal.strptime_fixed sample_today peak_rows d dy
                    /\ exists max_kp,
                         In max_kp (values (data dy))
                         /\ get_storm_level max_kp = Ok (stormLevel dy)
                         /\ (Forall (fun v => Py.is_nan v = false)
                                    (values (data dy)) ->
                             Forall (fun v => Py.le v max_kp = Ok true)
                                    (values (data dy))))
                 ds (days resp).
Proof.
  eexists. split; [vm_compute; reflexivity|].
  split; [vm_compute; reflexivity|].
  apply (day_level_is_level_of_max Cal.strptime_fixed sample_today peak_rows).
  vm_compute; reflexivity.
Defined.

Lemma malformed_timestamp_skipped_witness :
  parse_timestamp Cal.strptime_fixed (forecast_timestamp malformed_row)
  = Raise (ValueError "time data does not match format '%Y-%m-%d %H:%M:%S'")
  /\ snd (process_real_forecast_data Cal.strptime_fixed sample_today
            ([] ++ malformed_row :: sample_rows))
     = snd (process_real_forecast_data Cal.strptime_fixed sample_today
              ([] ++ sample_rows)).
Proof.
  split; [vm_compute; reflexivity|].
  refine (proj1 (malformed_timestamp_skipped Cal.strptime_fixed sample_today
                   [] sample_rows malformed_row
                   (ValueError "time data does not match format '%Y-%m-%d %H:%M:%S'")
                   _)).
  vm_compute; reflexivity.
Defined.

Lemma series_lengths_agree_witness :
  exists resp,
    snd (process_real_forecast_data Cal.strptime_fixed sample_today sample_rows)
    = Ok resp
    /\ Forall (fun dy => List.length (values (data dy))
                         = List.length (times (data dy)))
              (days resp).
Proof.
  eexists. split; [vm_compute; reflexivity|].
  apply (series_lengths_agree Cal.strptime_fixed sample_today sample_rows).
  vm_compute; reflexivity.
Defined.

(* ===================================================================== *)
(** * The endpoints *)
(* ===================================================================== *)

Section Endpoints.

Variable strptime : string -> result Cal.datetime.

(** C5: when the query returns no rows, the forecast endpoint answers
    with the fixed fallback: two days, "Сегодня" with the values
    3,4,5,4,3,4,3,4 and "Завтра" with 4,3,4,5,4,3,4,3, the level
    "Слабая буря" and the warning "Данные обновляются"; only the two
    date labels follow the clock, which must not stand at the last day
    of the calendar. *)
Theorem empty_rows_fallback (e : env) (conn : Sql.connection)
    (tomorrow : Cal.date) :
  store e = Sql.Present conn ->
  Sql.select_upcoming (sql_now e) conn = Ok [] ->
  Cal.add_one_day (today_of e) = Ok tomorrow ->
  get_3day_forecast strptime e
  = Http200
      (mkresponse "Москва" "Слабая буря" "Данные обновляются"
         [ mkday "Сегодня" (Cal.strftime_d_B (today_of e)) "Слабая буря"
             (mkdata [PyInt 3; PyInt 4; PyInt 5; PyInt 4;
                      PyInt 3; PyInt 4; PyInt 3; PyInt 4]
                     ["06:00"; "09:00"; "12:00"; "15:00";
                      "18:00"; "21:00"; "00:00"; "03:00"]);
           mkday "Завтра" (Cal.strftime_d_B tomorrow) "Слабая буря"
             (mkdata [PyInt 4; PyInt 3; PyInt 4; PyInt 5;
                      PyInt 4; PyInt 3; PyInt 4; PyInt 3]
                     ["06:00"; "09:00"; "12:00"; "15:00";
                      "18:00"; "21:00"; "00:00"; "03:00"]) ]).
Proof.
  intros Hstore Hrows Htomorrow.
  unfold get_3day_forecast, get_db_conn, forecast_of.
  rewrite Hstore, Hrows. cbn [Py.bind].
  unfold get_fallback_forecast. rewrite Htomorrow. reflexivity.
Qed.

(** C8: with the forecast table empty, /api/status answers with a null
    [current_kp] and the sentinel "Нет данных"; and whatever the
    database holds, the handler answers 200 rather than raising. *)
Theorem status_no_rows (e : env) (conn : Sql.connection) :
  store e = Sql.Present conn ->
  (exists body, get_current_status e = Http200 body)
  /\ (forall db,
        conn = Sql.Open db -> Sql.has_table db = true ->
        Sql.kp_forecasts_3day db = [] ->
        get_current_status e = Http200 (mkstatus None "Нет данных")).
Proof.
  intros Hstore. unfold get_current_status, get_db_conn. rewrite Hstore.
  split.
  - destruct (current_status_of conn); eauto.
  - intros db -> Ht Hrows.
    unfold current_status_of, Sql.select_latest, Sql.forecast_table.
    rewrite Ht, Hrows. reflexivity.
Qed.

(** C2, as the code has it: when the database file is missing, or cannot
    be opened, the connection dependency ends the request with a
    server error on /api/forecast, /api/status and /dbinfo alike, while
    /health reports the missing file in a 200 response; an exception
    raised inside the forecast handler (the query failing, as it does
    without the forecast table, or the processing failing) is absorbed
    into the fallback response, and one raised inside /dbinfo is
    surfaced as a server error. *)
Theorem store_unavailable_responses (e : env) :
  (store e = Sql.Missing ->
   get_3day_forecast strptime e
   = Http500 ("Database file not found: " ++ DB_PATH)
   /\ get_current_status e = Http500 ("Database file not found: " ++ DB_PATH)
   /\ dbinfo e = Http500 ("Database file not found: " ++ DB_PATH)
   /\ health e = Http200 (mkhealth "error" DB_PATH false (cwd e)))
  /\ (forall msg,
        store e = Sql.Unopenable msg ->
        get_3day_forecast strptime e = Http500 INTERNAL_SERVER_ERROR
        /\ get_current_status e = Http500 INTERNAL_SERVER_ERROR
        /\ dbinfo e = Http500 INTERNAL_SERVER_ERROR)
  /\ (forall conn ex fallback,
        store e = Sql.Present conn ->
        forecast_of strptime e conn = Raise ex ->
        get_fallback_forecast (today_of e) = Ok fallback ->
        get_3day_forecast strptime e = Http200 fallback)
  /\ (forall conn ex,
        Sql.forecast_table conn = Raise ex ->
        forecast_of strptime e conn = Raise ex)
  /\ (forall conn ex,
        store e = Sql.Present conn ->
        dbinfo_body_of e conn = Raise ex ->
        dbinfo e = Http500 (Py.exn_str ex)).
Proof.
  unfold get_3day_forecast, get_current_status, dbinfo, health, get_db_conn.
  split; [intros ->; auto|].
  split; [intros msg ->; auto|].
  split; [intros conn ex fallback -> -> ->; reflexivity|].
  split.
  - intros conn ex Ht.
    unfold forecast_of, Sql.select_upcoming. now rewrite Ht.
  - intros conn ex -> ->. reflexivity.
Qed.

End Endpoints.

Lemma empty_rows_fallback_witness :
  exists tomorrow body,
    Cal.add_one_day (today_of empty_table_env) = Ok tomorrow
    /\ get_3day_forecast Cal.strptime_fixed empty_table_env = Http200 body
    /\ map day (days body) = ["Сегодня"; "Завтра"]
    /\ map date (days body) = ["03 November"; "04 November"].
Proof.
  eexists. eexists.
  split; [vm_compute; reflexivity|].
  split.
  - apply (empty_rows_fallback Cal.strptime_fixed empty_table_env
             (Sql.Open (Sql.mkdb [Sql.TABLE] []))); vm_compute; reflexivity.
  - split; vm_compute; reflexivity.
Defined.

Lemma status_no_rows_witness :
  store empty_table_env = Sql.Present (Sql.Open (Sql.mkdb [Sql.TABLE] []))
  /\ get_current_status empty_table_env = Http200 (mkstatus None "Нет данных").
Proof.
  split; [reflexivity|].
  apply (proj2 (status_no_rows empty_table_env
                  (Sql.Open (Sql.mkdb [Sql.TABLE] [])) eq_refl)
               (Sql.mkdb [Sql.TABLE] []));
    vm_compute; reflexivity.
Defined.

Lemma store_unavailable_responses_witness :
  store missing_env = Sql.Missing
  /\ get_3day_forecast Cal.strptime_fixed missing_env
     = Http500 ("Database file not found: " ++ DB_PATH)
  /\ exists fallback,
       get_3day_forecast Cal.strptime_fixed no_table_env = Http200 fallback
       /\ map day (days fallback) = ["Сегодня"; "Завтра"].
Proof.
  split; [reflexivity|].
  split.
  - apply (proj1 (store_unavailable_responses Cal.strptime_fixed missing_env)).
    reflexivity.
  - eexists. split.
    + apply (proj1 (proj2 (proj2 (store_unavailable_responses
                                    Cal.strptime_fixed no_table_env)))
               (Sql.Open (Sql.mkdb [] []))
               (DatabaseError ("no such table: " ++ Sql.TABLE)));
        vm_compute; reflexivity.
    + vm_compute; reflexivity.
Defined.

(** With the database file missing, the forecast endpoint does not
    answer with the fallback, nor with any 200 response: the request ends
    with the 500 of the connection dependency. *)
Lemma forecast_store_missing_counterexample :
  store missing_env = Sql.Missing
  /\ get_3day_forecast Cal.strptime_fixed missing_env
     = Http500 "Database file not found: c:\project\space-weather\scripts\magnetic_data.db"
  /\ (forall body,
        get_3day_forecast Cal.strptime_fixed missing_env <> Http200 body)
  /\ health missing_env
     = Http200 (mkhealth "error" DB_PATH false "/srv/space-weather").
Proof.
  repeat split; try (vm_compute; reflexivity).
  intros body. vm_compute. discriminate.
Qed.

(** A single sample dated today with Kp 6.2 gives the current storm
    "Умеренная буря". *)
Example single_sample_moderate :
  option_map currentStorm
    (match snd (process_real_forecast_data Cal.strptime_fixed sample_today
                  [sample_row "2026-11-03 12:00:00" float_6_2]) with
     | Ok resp => Some resp
     | Raise _ => None
     end)
  = Some MODERATE.
Proof. vm_compute; reflexivity. Qed.

(* ===================================================================== *)
(** * Further properties: levels and warnings *)
(* ===================================================================== *)

Lemma get_storm_level_range (kp : pyval) (level : string) :
  get_storm_level kp = Ok level -> In level storm_levels.
Proof.
  unfold get_storm_level, storm_levels.
  destruct (Py.ge kp float_9_0) as [[|]|]; cbn [Py.bind]; try discriminate;
    [intros [= <-]; simpl; tauto|].
  destruct (Py.ge kp float_8_0) as [[|]|]; cbn [Py.bind]; try discriminate;
    [intros [= <-]; simpl; tauto|].
  destruct (Py.ge kp float_7_0) as [[|]|]; cbn [Py.bind]; try discriminate;
    [intros [= <-]; simpl; tauto|].
  destruct (Py.ge kp float_6_0) as [[|]|]; cbn [Py.bind]; try discriminate;
    [intros [= <-]; simpl; tauto|].
  destruct (Py.ge kp float_5_0) as [[|]|]; cbn [Py.bind]; try discriminate;
    intros [= <-]; simpl; tauto.
Qed.

Lemma storm_levels_warned (level : string) :
  In level storm_levels ->
  dict_get warnings level = Some (get_warning_message level)
  /\ get_warning_message level <> GENERIC_WARNING.
Proof.
  unfold storm_levels. simpl.
  intros [<-|[<-|[<-|[<-|[<-|[<-|[]]]]]]];
    (split; [vm_compute; reflexivity|vm_compute; discriminate]).
Qed.

(** X1: every level [get_storm_level] produces is one of the six keys of
    the warning table, so its warning is the table's own entry and never
    the generic default; the level of the fallback forecast is not
    among them and would get the default. *)
Theorem classified_levels_have_warnings (kp : pyval) (level : string) :
  get_storm_level kp = Ok level ->
  In level storm_levels
  /\ dict_get warnings level = Some (get_warning_message level)
  /\ get_warning_message level <> GENERIC_WARNING
  /\ level <> WEAK_STORM
  /\ get_warning_message WEAK_STORM = GENERIC_WARNING.
Proof.
  intros H. pose proof (get_storm_level_range kp level H) as Hr.
  destruct (storm_levels_warned level Hr) as (Hw & Hn).
  split; [assumption|]. split; [assumption|]. split; [assumption|].
  split; [|reflexivity].
  intros ->. revert Hr. unfold storm_levels. simpl.
  intros [E|[E|[E|[E|[E|[E|[]]]]]]]; vm_compute in E; discriminate.
Qed.

Lemma classified_levels_have_warnings_witness :
  get_storm_level float_6_2 = Ok MODERATE
  /\ get_warning_message MODERATE <> GENERIC_WARNING.
Proof.
  split; [vm_compute; reflexivity|].
  refine (proj1 (proj2 (proj2
            (classified_levels_have_warnings float_6_2 MODERATE _)))).
  vm_compute; reflexivity.
Defined.

(* ===================================================================== *)
(** * Further properties: the response of the row pass *)
(* ===================================================================== *)

Section ProcessMore.

Variable strptime : string -> result Cal.datetime.
Variable today : Cal.date.

Lemma level_of_max_numbers (dy : day_forecast) :
  level_of_max dy ->
  In (stormLevel dy) storm_levels
  /\ Forall (fun v => Py.is_number v = true) (values (data dy)).
Proof.
  unfold level_of_max.
  destruct (values (data dy)) as [|v vs].
  - intros ->. split; [unfold storm_levels; simpl; tauto|constructor].
  - intros (m & Hmax & Hlvl). split; [eapply get_storm_level_range; eauto|].
    pose proof (get_storm_level_number _ _ Hlvl) as Hnum.
    now destruct (max_from_spec vs v m Hmax Hnum) as (Hall & _).
Qed.

(** X2: in a returned response the current storm is the level of the
    first day, or the calmest level when no day is returned; the
    warning is the table entry of that level, never the generic default;
    the location is fixed. *)
Theorem current_storm_is_first_day (rows : list row) (resp : forecast_response) :
  snd (process_real_forecast_data strptime today rows) = Ok resp ->
  currentStorm resp
  = match days resp with d :: _ => stormLevel d | [] => CALM end
  /\ In (currentStorm resp) storm_levels
  /\ dict_get warnings (currentStorm resp) = Some (warning resp)
  /\ warning resp <> GENERIC_WARNING
  /\ location resp = MOSCOW.
Proof.
  intros Hresp.
  destruct (process_spec strptime today rows resp Hresp)
    as (ds & _ & _ & _ & _ & L & Hc & Hw & Hl).
  assert (Hin : In (currentStorm resp) storm_levels).
  { rewrite Hc. destruct (days resp) as [|d l];
      [unfold storm_levels; simpl; tauto|].
    inversion L; subst. now apply level_of_max_numbers. }
  destruct (storm_levels_warned _ Hin) as (Hd & Hn).
  rewrite Hw. auto.
Qed.

(** X3: when the loop passes over every row (each is unreadable or dated
    before today), the function still returns: no days, the calmest
    level and its warning; this is not the fallback forecast. *)
Theorem all_rows_skipped_no_days (rows : list row) :
  forallb (skipped strptime today) rows = true ->
  snd (process_real_forecast_data strptime today rows)
  = Ok (mkresponse "Москва" "Спокойное" "Геомагнитная обстановка спокойная" [])
  /\ forall fallback,
       get_fallback_forecast today = Ok fallback ->
       snd (process_real_forecast_data strptime today rows) <> Ok fallback.
Proof.
  intros H.
  assert (Hr : retained strptime today rows = retained strptime today []).
  { induction rows as [|r rows IH]; [reflexivity|].
    simpl in H. apply andb_true_iff in H as (Hr & Hrows).
    unfold skipped in Hr. simpl.
    destruct (parse_timestamp strptime (forecast_timestamp r));
      [rewrite Hr|]; auto. }
  rewrite (process_retained strptime today rows [] Hr).
  split; [reflexivity|].
  intros fallback. unfold get_fallback_forecast.
  destruct (Cal.add_one_day today); cbn [Py.bind]; [|discriminate].
  intros [= <-]. simpl. discriminate.
Qed.

(** X4: a returned day never has an empty series, and never holds a
    value that is not a number: a NULL or text Kp index in a row of a
    returned day makes the function raise instead. *)
Theorem returned_series_are_numbers (rows : list row) (resp : forecast_response) :
  snd (process_real_forecast_data strptime today rows) = Ok resp ->
  Forall (fun dy => values (data dy) <> []
                    /\ Forall (fun v => Py.is_number v = true)
                              (values (data dy)))
         (days resp).
Proof.
  intros Hresp.
  destruct (process_spec strptime today rows resp Hresp)
    as (ds & F & _ & _ & _ & L & _).
  revert L. induction F as [|d dy ds l ((N & Ev & _) & _) F IH]; intros L;
    [constructor|].
  inversion L as [|? ? Hdy L']; subst. constructor; [|auto].
  split; [|now apply level_of_max_numbers].
  rewrite Ev. intros E. apply N. now apply map_eq_nil in E.
Qed.

(** X5: a retained row whose Kp index is not a number is survived only
    beyond the third day: if the function returns, three days are
    returned and all three are earlier than that row's date. *)
Theorem non_number_only_beyond_third_day (rows : list row)
    (resp : forecast_response) (t : Cal.datetime) (kp : pyval) :
  snd (process_real_forecast_data strptime today rows) = Ok resp ->
  In (t, kp) (retained strptime today rows) ->
  Py.is_number kp = false ->
  List.length (days resp) = 3%nat
  /\ exists ds,
       Forall2 (aggregates strptime today rows) ds (days resp)
       /\ Forall (fun d => Cal.date_ltb d (Cal.dt_date t) = true) ds.
Proof.
  intros Hresp Hin Hkp.
  destruct (process_spec strptime today rows resp Hresp)
    as (ds & F & _ & _ & Hall & L & _).
  assert (F' : Forall2 (aggregates strptime today rows) ds (days resp))
    by (eapply Forall2_impl; [|exact F]; simpl; tauto).
  destruct (Hall _ Hin) as [Hd|(Hlen & Hlt)].
  - exfalso. simpl in Hd.
    assert (Hfresh : Cal.date_ltb (Cal.dt_date t) today = false).
    { pose proof (retained_fresh strptime today rows) as Fr.
      rewrite Forall_forall in Fr. exact (Fr _ Hin). }
    clear Hall Hresp. revert L Hd.
    induction F as [|d dy ds l ((N & Ev & _) & _) F IH]; intros L Hd;
      [contradiction|].
    inversion L as [|? ? Hdy L']; subst.
    inversion F' as [|? ? ? ? _ F'']; subst.
    destruct Hd as [->|Hd]; [|now apply IH].
    destruct (level_of_max_numbers dy Hdy) as (_ & Hnum).
    rewrite Ev, <- (on_day_retained strptime today _ rows Hfresh) in Hnum.
    rewrite Forall_map, Forall_forall in Hnum.
    specialize (Hnum (t, kp)). simpl in Hnum.
    rewrite Hnum in Hkp; [discriminate|].
    apply filter_In. split; [assumption|apply date_eqb_refl].
  - split; [now rewrite <- (Forall2_length F)|]. now exists ds.
Qed.

Lemma bucket_rows_prints rows : forall fb,
  fst (bucket_rows strptime today rows fb) = parse_errors strptime rows.
Proof.
  induction rows as [|r rows IH]; intros fb; simpl; [reflexivity|].
  destruct (parse_timestamp strptime (forecast_timestamp r)) as [t|e].
  - destruct (Cal.date_ltb (Cal.dt_date t) today) eqn:S; [apply IH|].
    destruct (add_sample_defined today fb (Cal.dt_date t) t (kp_index r) S)
      as (fb' & ->).
    apply IH.
  - specialize (IH fb).
    destruct (bucket_rows strptime today rows fb). simpl in *. now f_equal.
Qed.

(** X6: what the function prints: first the number of input rows, then
    exactly one diagnostic for each row whose timestamp does not parse,
    in input order and none for a row that is merely stale, then, when
    it returns, the number of days and the response. *)
Theorem printed_lines (rows : list row) :
  fst (process_real_forecast_data strptime today rows)
  = (PrintProcessing (List.length rows) :: parse_errors strptime rows
     ++ match snd (process_real_forecast_data strptime today rows) with
        | Ok resp => [PrintFormed (List.length (days resp)); PrintResult resp]
        | Raise _ => []
        end)%list.
Proof.
  unfold process_real_forecast_data.
  pose proof (bucket_rows_prints rows []) as Hp.
  destruct (bucket_rows strptime today rows []) as [out r]. simpl in Hp.
  subst out.
  destruct r as [fb|]; [|simpl; now rewrite app_nil_r].
  destruct (_ <- Py.mapM _ _ ;; _) as [[dl cs]|]; simpl;
    [reflexivity|now rewrite app_nil_r].
Qed.

(** X7: the days are sorted by their ISO keys, and that is the calendar
    order: one key is below another exactly when its date is earlier,
    and two dates share a key only when they are the same date. *)
Theorem iso_keys_order_dates (a b : Cal.date) :
  String.ltb (Cal.isoformat a) (Cal.isoformat b) = Cal.date_ltb a b
  /\ (Cal.isoformat a = Cal.isoformat b <-> a = b)
  /\ String.length (Cal.isoformat a) = 10%nat.
Proof.
  split; [apply isoformat_ltb|].
  split; [split; [apply isoformat_inj|now intros ->]|reflexivity].
Qed.

End ProcessMore.

(* ===================================================================== *)
(** * Further properties: the queries *)
(* ===================================================================== *)

Section SqlOrder.

Lemma sql_compare_antisym (a b : pyval) :
  Sql.compare b a = CompOpp (Sql.compare a b).
Proof.
  unfold Sql.compare. rewrite (Z.compare_antisym (Sql.class a) (Sql.class b)).
  destruct (Sql.class a ?= Sql.class b); simpl; try reflexivity.
  destruct a, b; cbn [Py.num_of]; try reflexivity;
    try apply String.compare_antisym;
    match goal with
    | |- context [Py.xcompare ?y ?x] =>
        rewrite (xcompare_antisym x y); destruct (Py.xcompare x y);
        reflexivity
    end.
Qed.

Lemma sql_le_refl (a : pyval) : sql_le a a = true.
Proof.
  unfold sql_le. pose proof (sql_compare_antisym a a) as H.
  destruct (Sql.compare a a); try reflexivity. discriminate.
Qed.

Lemma string_compare_le_trans (a b c : string) :
  String.compare a b <> Gt -> String.compare b c <> Gt ->
  String.compare a c <> Gt.
Proof.
  intros H1 H2.
  destruct (String.compare a b) eqn:E1; [|clear H1|congruence].
  - apply String.compare_eq_iff in E1. now subst.
  - destruct (String.compare b c) eqn:E2; [| |congruence].
    + apply String.compare_eq_iff in E2. subst. now rewrite E1.
    + now rewrite (string_compare_lt_trans a b c).
Qed.

Lemma xcompare_le_trans (x y z : Py.xnum) :
  x <> Py.XNaN -> y <> Py.XNaN -> z <> Py.XNaN ->
  match Py.xcompare x y with Some c => c | None => Eq end <> Gt ->
  match Py.xcompare y z with Some c => c | None => Eq end <> Gt ->
  match Py.xcompare x z with Some c => c | None => Eq end <> Gt.
Proof.
  intros Hx Hy Hz H1 H2.
  assert (L1 : Py.op_holds Py.OpLe (Py.xcompare x y) = true)
    by (destruct x, y; simpl in *; try congruence;
        destruct (Py.fin_compare _ _ _ _); congruence).
  assert (L2 : Py.op_holds Py.OpLe (Py.xcompare y z) = true)
    by (destruct y, z; simpl in *; try congruence;
        destruct (Py.fin_compare _ _ _ _); congruence).
  pose proof (xle_trans x y z L1 L2) as L.
  destruct (Py.xcompare x z) as [[ | | ]|]; simpl in *; congruence.
Qed.

Lemma class_number (a : pyval) :
  Sql.class a = 1 ->
  exists x, Py.num_of a = Some x /\ x <> Py.XNaN.
Proof.
  destruct a; simpl; try discriminate.
  - intros _. eexists. split; [reflexivity|discriminate].
  - unfold Py.is_nan. simpl.
    destruct (Py.float_num f) eqn:E; try discriminate; intros _;
      eexists; (split; [reflexivity|discriminate]).
Qed.

Lemma sql_compare_class_lt (a b : pyval) :
  Sql.class a < Sql.class b -> Sql.compare a b = Lt.
Proof.
  intros H. unfold Sql.compare.
  now apply Z.compare_lt_iff in H as ->.
Qed.

Lemma sql_le_class (a b : pyval) :
  sql_le a b = true -> Sql.class a <= Sql.class b.
Proof.
  unfold sql_le, Sql.compare.
  destruct (Z.compare_spec (Sql.class a) (Sql.class b)); try lia;
    discriminate.
Qed.

Lemma sql_compare_null (a b : pyval) :
  Sql.class a = 0 -> Sql.class b = 0 -> Sql.compare a b = Eq.
Proof.
  intros Ha Hb. unfold Sql.compare. rewrite Ha, Hb. simpl.
  destruct a, b; simpl in *; try discriminate; try reflexivity;
    unfold Py.is_nan in *; simpl in *;
    repeat match goal with
           | H : context [Py.float_num ?f] |- _ =>
               destruct (Py.float_num f); try discriminate
           end; reflexivity.
Qed.

Lemma sql_compare_number (a b : pyval) (x y : Py.xnum) :
  Sql.class a = 1 -> Sql.class b = 1 ->
  Py.num_of a = Some x -> Py.num_of b = Some y ->
  Sql.compare a b = match Py.xcompare x y with Some c => c | None => Eq end.
Proof.
  intros Ca Cb Hx Hy. unfold Sql.compare. rewrite Ca, Cb, Hx, Hy. simpl.
  destruct a, b; simpl in *; try discriminate; reflexivity.
Qed.

Lemma class_text (a : pyval) : Sql.class a = 2 -> exists s, a = PyStr s.
Proof.
  destruct a; simpl; try discriminate; eauto.
  destruct (Py.is_nan _); discriminate.
Qed.

Lemma class_blob (a : pyval) : Sql.class a = 3 -> exists s, a = PyBytes s.
Proof.
  destruct a; simpl; try discriminate; eauto.
  destruct (Py.is_nan _); discriminate.
Qed.

Lemma class_range (a : pyval) :
  Sql.class a = 0 \/ Sql.class a = 1 \/ Sql.class a = 2 \/ Sql.class a = 3.
Proof. destruct a; simpl; auto. destruct (Py.is_nan _); auto. Qed.

Lemma sql_le_trans (a b c : pyval) :
  sql_le a b = true -> sql_le b c = true -> sql_le a c = true.
Proof.
  intros H1 H2.
  pose proof (sql_le_class _ _ H1) as C1.
  pose proof (sql_le_class _ _ H2) as C2.
  destruct (Z.eq_dec (Sql.class a) (Sql.class c)) as [E|N].
  2: { unfold sql_le. rewrite sql_compare_class_lt by lia. reflexivity. }
  assert (Eb : Sql.class b = Sql.class a) by lia.
  unfold sql_le in *.
  destruct (class_range a) as [Ca|[Ca|[Ca|Ca]]].
  - rewrite sql_compare_null by lia. reflexivity.
  - destruct (class_number a Ca) as (x & Hx & Nx).
    destruct (class_number b ltac:(lia)) as (y & Hy & Ny).
    destruct (class_number c ltac:(lia)) as (z & Hz & Nz).
    rewrite (sql_compare_number a b x y) in H1 by (assumption || lia).
    rewrite (sql_compare_number b c y z) in H2 by (assumption || lia).
    rewrite (sql_compare_number a c x z) by (assumption || lia).
    pose proof (xcompare_le_trans x y z Nx Ny Nz) as T.
    destruct (match Py.xcompare x z with Some c0 => c0 | None => Eq end);
      try reflexivity.
    exfalso. apply T; try reflexivity; intros E'.
    + rewrite E' in H1. discriminate.
    + rewrite E' in H2. discriminate.
  - destruct (class_text a Ca) as (s & ->).
    destruct (class_text b ltac:(lia)) as (t & ->).
    destruct (class_text c ltac:(lia)) as (u & ->).
    change (Sql.compare (PyStr s) (PyStr t)) with (String.compare s t) in H1.
    change (Sql.compare (PyStr t) (PyStr u)) with (String.compare t u) in H2.
    change (Sql.compare (PyStr s) (PyStr u)) with (String.compare s u).
    pose proof (string_compare_le_trans s t u) as T.
    destruct (String.compare s u); try reflexivity.
    exfalso. apply T; try reflexivity; intros E'.
    + rewrite E' in H1. discriminate.
    + rewrite E' in H2. discriminate.
  - destruct (class_blob a Ca) as (s & ->).
    destruct (class_blob b ltac:(lia)) as (t & ->).
    destruct (class_blob c ltac:(lia)) as (u & ->).
    change (Sql.compare (PyBytes s) (PyBytes t)) with (String.compare s t) in H1.
    change (Sql.compare (PyBytes t) (PyBytes u)) with (String.compare t u) in H2.
    change (Sql.compare (PyBytes s) (PyBytes u)) with (String.compare s u).
    pose proof (string_compare_le_trans s t u) as T.
    destruct (String.compare s u); try reflexivity.
    exfalso. apply T; try reflexivity; intros E'.
    + rewrite E' in H1. discriminate.
    + rewrite E' in H2. discriminate.
Qed.

End SqlOrder.

Section Queries.

Lemma row_before_refl desc r : row_before desc r r.
Proof. unfold row_before. destruct desc; apply sql_le_refl. Qed.

Lemma row_before_trans desc r1 r2 r3 :
  row_before desc r1 r2 -> row_before desc r2 r3 -> row_before desc r1 r3.
Proof.
  unfold row_before. destruct desc; intros H1 H2; eapply sql_le_trans; eauto.
Qed.

Lemma insert_row_perm desc r l : Permutation (Sql.insert_row desc r l) (r :: l).
Proof.
  induction l as [|r' l IH]; simpl; [reflexivity|].
  destruct (match Sql.compare _ _ with Lt => _ | Eq => _ | Gt => _ end);
    [|reflexivity].
  rewrite IH. apply perm_swap.
Qed.

Lemma order_by_timestamp_perm desc rows :
  Permutation (Sql.order_by_timestamp desc rows) rows.
Proof.
  induction rows as [|r rows IH]; simpl; [reflexivity|].
  rewrite insert_row_perm. now constructor.
Qed.

Lemma insert_row_sorted desc r l :
  StronglySorted (row_before desc) l ->
  StronglySorted (row_before desc) (Sql.insert_row desc r l).
Proof.
  induction l as [|r' l IH]; simpl; intros Hs; [repeat constructor|].
  inversion Hs as [|? ? Hs' Hall]; subst.
  pose proof (sql_compare_antisym (forecast_timestamp r')
                                  (forecast_timestamp r)) as A.
  destruct (match Sql.compare (forecast_timestamp r') (forecast_timestamp r)
            with Lt => negb desc | Eq => false | Gt => desc end) eqn:T.
  - assert (Hb : row_before desc r' r).
    { unfold row_before, sql_le. rewrite A.
      destruct (Sql.compare (forecast_timestamp r') (forecast_timestamp r)),
        desc; simpl in *; congruence. }
    constructor; [now apply IH|].
    eapply Permutation_Forall; [symmetry; apply insert_row_perm|].
    now constructor.
  - assert (Hb : row_before desc r r').
    { unfold row_before, sql_le. rewrite A.
      destruct (Sql.compare (forecast_timestamp r') (forecast_timestamp r)),
        desc; simpl in *; congruence. }
    constructor; [assumption|].
    constructor; [assumption|].
    eapply Forall_impl; [|exact Hall].
    intros x Hx. eapply row_before_trans; eauto.
Qed.

Lemma order_by_timestamp_sorted desc rows :
  StronglySorted (row_before desc) (Sql.order_by_timestamp desc rows).
Proof.
  induction rows as [|r rows IH]; simpl; [constructor|].
  now apply insert_row_sorted.
Qed.

Lemma firstn_sorted {A} (R : A -> A -> Prop) n (l : list A) :
  StronglySorted R l -> StronglySorted R (firstn n l).
Proof.
  intros H. rewrite <- (firstn_skipn n l) in H.
  now apply StronglySorted_app_inv in H.
Qed.


(** X9: the rows the forecast query hands to the handler: at most 48,
    each a row of the table whose timestamp is not NULL and does not
    sort before the text of datetime('now'), in ascending order of
    timestamp. *)
Theorem select_upcoming_rows (conn : Sql.connection) (sql_now : string)
    (table rows : list row) :
  Sql.forecast_table conn = Ok table ->
  Sql.select_upcoming sql_now conn = Ok rows ->
  (List.length rows <= 48)%nat
  /\ Forall (fun r => In r table
                      /\ forecast_timestamp r <> PyNone
                      /\ sql_le (PyStr sql_now) (forecast_timestamp r) = true)
            rows
  /\ StronglySorted (row_before false) rows.
Proof.
  intros Ht. unfold Sql.select_upcoming. rewrite Ht. cbn [Py.bind].
  remember 48%nat as lim eqn:En.
  intros [= <-].
  set (f := fun r => Sql.ge (forecast_timestamp r) (PyStr sql_now)).
  split; [rewrite length_firstn; lia|].
  split.
  - rewrite Forall_forall. intros r Hr.
    apply (In_nth_error) in Hr as (n & Hn).
    assert (Hin : In r (Sql.order_by_timestamp false (filter f table))).
    { apply nth_error_In in Hn.
      rewrite <- (firstn_skipn lim (Sql.order_by_timestamp false _)).
      apply in_or_app. now left. }
    apply (Permutation_in _ (order_by_timestamp_perm false _)) in Hin.
    apply filter_In in Hin as (Hin & Hf).
    split; [assumption|].
    unfold f, Sql.ge in Hf.
    apply andb_true_iff in Hf as (Hf & Hc).
    apply andb_true_iff in Hf as (Hn1 & _).
    split.
    + intros E. rewrite E in Hn1. discriminate.
    + unfold sql_le.
      rewrite (sql_compare_antisym (forecast_timestamp r) (PyStr sql_now)).
      destruct (Sql.compare (forecast_timestamp r) (PyStr sql_now));
        simpl in *; congruence.
  - apply firstn_sorted, order_by_timestamp_sorted.
Qed.


End Queries.

(* ===================================================================== *)
(** * Further properties: day names and the static endpoints *)
(* ===================================================================== *)

Section DayNames.

Lemma add_one_day_later (d t : Cal.date) :
  Cal.add_one_day d = Ok t -> Cal.date_ltb d t = true.
Proof.
  pose proof (date_bounds d) as (Y & M & D).
  unfold Cal.add_one_day, Cal.make_date.
  destruct (bool_dec _ true) as [V1|N1].
  { intros [= <-]. apply date_ltb_lt, date_compare_lt. simpl. lia. }
  destruct (bool_dec _ true) as [V2|N2].
  { intros [= <-]. apply date_ltb_lt, date_compare_lt. simpl. lia. }
  destruct (bool_dec _ true) as [V3|N3]; [|discriminate].
  intros [= <-]. apply date_ltb_lt, date_compare_lt. simpl. lia.
Qed.

Lemma weekday_name (d : Cal.date) :
  exists name,
    nth_error days_ru (Z.to_nat (Cal.weekday d)) = Some name
    /\ nth (Z.to_nat (Cal.weekday d)) days_ru "" = name
    /\ name <> TODAY /\ name <> TOMORROW.
Proof.
  unfold Cal.weekday.
  pose proof (Z.mod_pos_bound (Cal.toordinal d + 6) 7 ltac:(lia)) as B.
  set (w := (Cal.toordinal d + 6) mod 7) in *.
  assert (Hw : w = 0 \/ w = 1 \/ w = 2 \/ w = 3 \/ w = 4 \/ w = 5 \/ w = 6)
    by lia.
  destruct Hw as [-> | [-> | [-> | [-> | [-> | [-> | ->]]]]]]; simpl;
    eexists; (split; [reflexivity|]); (split; [reflexivity|]);
    split; vm_compute; discriminate.
Qed.

(** X11: the name of a day on or after today: "Сегодня" exactly for
    today, "Завтра" exactly for the day after today, and otherwise the
    entry of the weekday table at the date's weekday, Monday first; the
    lookup never leaves the table. *)
Theorem get_day_name_labels (today d : Cal.date) :
  Cal.date_ltb d today = false ->
  exists name,
    get_day_name today d = Ok name
    /\ (name = TODAY <-> d = today)
    /\ (name = TOMORROW <-> Cal.add_one_day today = Ok d)
    /\ (name <> TODAY -> name <> TOMORROW ->
        nth_error days_ru (Z.to_nat (Cal.weekday d)) = Some name).
Proof.
  intros Hfresh. unfold get_day_name.
  destruct (Cal.date_eqb d today) eqn:E.
  - apply date_eqb_eq in E. subst d. exists TODAY.
    split; [reflexivity|]. split; [tauto|].
    split; [|congruence].
    split; [vm_compute; discriminate|].
    intros H. apply add_one_day_later in H.
    now rewrite date_ltb_irrefl in H.
  - assert (Hne : d <> today)
      by (intros ->; now rewrite date_eqb_refl in E).
    destruct (not_stale_cases _ _ Hfresh) as [E'|L]; [congruence|].
    destruct (add_one_day_defined _ _ L) as (t & Ht). rewrite Ht.
    cbn [Py.bind].
    destruct (Cal.date_eqb d t) eqn:Et.
    + apply date_eqb_eq in Et. subst t. exists TOMORROW.
      split; [reflexivity|].
      split; [split; [vm_compute; discriminate|congruence]|].
      split; [tauto|congruence].
    + assert (Hnt : d <> t)
        by (intros ->; now rewrite date_eqb_refl in Et).
      destruct (weekday_name d) as (name & Hnth & Hn & N1 & N2).
      exists name. rewrite Hn.
      split; [reflexivity|].
      split; [split; [congruence|contradiction]|].
      split; [split; [congruence|intros [= ->]; congruence]|auto].
Qed.

End DayNames.

Section StaticEndpoints.

(** X12: /api/sun-times answers 200 for every clock reading with five
    times of day in ascending order, solar noon at 12:30; it is the
    winter table, with sunrise at 08:45, exactly from October to
    February. *)
Theorem sun_times_ascending (e : env) :
  exists body,
    get_sun_times_api e = Http200 body
    /\ String.ltb (dawnStart body) (sunrise body) = true
    /\ String.ltb (sunrise body) (solarNoon body) = true
    /\ String.ltb (solarNoon body) (sunset body) = true
    /\ String.ltb (sunset body) (duskEnd body) = true
    /\ solarNoon body = "12:30"
    /\ (sunrise body = "08:45"
        <-> In (Cal.month (Cal.dt_date (now e))) [10; 11; 12; 1; 2]).
Proof.
  unfold get_sun_times_api.
  pose proof (date_bounds (Cal.dt_date (now e))) as (_ & M & _).
  set (m := Cal.month (Cal.dt_date (now e))) in *.
  eexists. split; [reflexivity|]. cbn [dawnStart sunrise solarNoon sunset duskEnd].
  destruct ((10 <=? m) || (m <=? 2)) eqn:W.
  - repeat split; try (vm_compute; reflexivity).
    intros _. apply orb_true_iff in W.
    rewrite Z.leb_le, Z.leb_le in W. simpl. lia.
  - repeat split; try (vm_compute; reflexivity).
    + intros H. vm_compute in H. discriminate.
    + apply orb_false_iff in W. rewrite !Z.leb_gt in W. simpl. lia.
Qed.

(** X13: /api/old-forecast lists today and tomorrow with consecutive
    calendar days in ISO form, the earlier first, with the fixed Kp
    indices 3.0 and 5.0; on the last day of the calendar the handler
    fails with a server error. *)
Theorem old_forecast_consecutive_days (e : env) :
  (forall tomorrow,
     Cal.add_one_day (today_of e) = Ok tomorrow ->
     get_old_forecast e
     = Http200 (Old.mkbody
                  [ Old.mkentry "today" (Cal.isoformat (today_of e))
                                float_3_0 "calm";
                    Old.mkentry "tomorrow" (Cal.isoformat tomorrow)
                                float_5_0 "weak" ])
     /\ Cal.toordinal tomorrow = Cal.toordinal (today_of e) + 1
     /\ String.ltb (Cal.isoformat (today_of e)) (Cal.isoformat tomorrow)
        = true)
  /\ (Cal.year (today_of e) < 9999 ->
      exists tomorrow, Cal.add_one_day (today_of e) = Ok tomorrow)
  /\ (forall ex,
        Cal.add_one_day (today_of e) = Raise ex ->
        get_old_forecast e = Http500 INTERNAL_SERVER_ERROR).
Proof.
  unfold get_old_forecast. split; [|split].
  - intros t Ht. rewrite Ht. split; [reflexivity|].
    split; [now apply add_one_day_toordinal|].
    rewrite isoformat_ltb. now apply add_one_day_later.
  - apply add_one_day_before_max.
  - intros ex ->. reflexivity.
Qed.

Variable strptime : string -> result Cal.datetime.

Lemma forecast_present_not_missing (e : env) (conn : Sql.connection) :
  store e = Sql.Present conn ->
  get_3day_forecast strptime e
  <> Http500 ("Database file not found: " ++ DB_PATH).
Proof.
  intros Hs. unfold get_3day_forecast, get_db_conn. rewrite Hs.
  destruct (forecast_of strptime e conn); [discriminate|].
  destruct (get_fallback_forecast (today_of e)); [discriminate|].
  intros H. vm_compute in H. discriminate.
Qed.

(** X14: /health never fails, and it agrees with the connection
    dependency: it reports status "error" and [db_exists] false exactly
    when /api/forecast and /api/status end with the 500 response
    "Database file not found". *)
Theorem health_agrees_with_dependency (e : env) :
  exists body,
    health e = Http200 body
    /\ db_path body = DB_PATH /\ current_dir body = cwd e
    /\ (status body = "error" <-> db_exists body = false)
    /\ (status body = "ok" <-> db_exists body = true)
    /\ (db_exists body = false
        <-> get_3day_forecast strptime e
            = Http500 ("Database file not found: " ++ DB_PATH))
    /\ (db_exists body = false
        <-> get_current_status e
            = Http500 ("Database file not found: " ++ DB_PATH)).
Proof.
  unfold health. eexists. split; [reflexivity|].
  cbn [db_path current_dir status db_exists].
  split; [reflexivity|]. split; [reflexivity|].
  destruct (store e) as [|msg|conn] eqn:Hs.
  - repeat split; try discriminate; try reflexivity;
      intros _; unfold get_3day_forecast, get_current_status, get_db_conn;
      now rewrite Hs.
  - repeat split; try discriminate; try reflexivity;
      unfold get_3day_forecast, get_current_status, get_db_conn;
      rewrite Hs; intros H; vm_compute in H; discriminate.
  - repeat split; try discriminate; try reflexivity.
    + intros H. exfalso. exact (forecast_present_not_missing e conn Hs H).
    + unfold get_current_status, get_db_conn. rewrite Hs.
      destruct (current_status_of conn); discriminate.
Qed.

End StaticEndpoints.

(* ===================================================================== *)
(** * Further properties: the forecast endpoint as a whole *)
(* ===================================================================== *)

Section ForecastEndpoint.

Variable strptime : string -> result Cal.datetime.

Lemma fallback_body_ok (today : Cal.date) (body : forecast_response) :
  get_fallback_forecast today = Ok body -> forecast_body_ok body.
Proof.
  unfold get_fallback_forecast.
  destruct (Cal.add_one_day today); cbn [Py.bind]; [|discriminate].
  intros [= <-]. unfold forecast_body_ok. simpl.
  split; [reflexivity|]. split; [lia|].
  split.
  { repeat constructor; discriminate. }
  split; [now left|]. vm_compute. discriminate.
Qed.

Lemma process_body_ok (today : Cal.date) (rows : list row)
    (body : forecast_response) :
  snd (process_real_forecast_data strptime today rows) = Ok body ->
  forecast_body_ok body.
Proof.
  intros Hresp.
  destruct (process_spec strptime today rows body Hresp)
    as (ds & F & _ & Hlen & _ & L & Hc & Hw & Hl).
  assert (Hin : In (currentStorm body) storm_levels).
  { rewrite Hc. destruct (days body) as [|d l];
      [unfold storm_levels; simpl; tauto|].
    inversion L; subst. now apply level_of_max_numbers. }
  unfold forecast_body_ok.
  split; [assumption|].
  split; [now rewrite <- (Forall2_length F)|].
  split.
  { clear Hc Hin. revert L.
    induction F as [|d dy ds' l ((N & Ev & Et & _) & _) F IH]; intros L;
      [constructor|].
    inversion L as [|? ? Hdy L']; subst.
    constructor; [|apply IH; [simpl in Hlen; lia|assumption]].
    split; [rewrite Ev; intros E; apply N; now apply map_eq_nil in E|].
    split; [now rewrite Ev, Et, !length_map|].
    now apply level_of_max_numbers. }
  split; [now right|].
  rewrite Hw. now apply storm_levels_warned.
Qed.

(** X15: every 200 response of /api/forecast, from rows or as fallback,
    has the location "Москва", at most three days, in each day a
    non-empty series of numbers with as many times as values, a current
    storm that is one of the six levels or the fallback's "Слабая буря",
    and a warning other than the generic default. *)
Theorem forecast_responses_well_formed (e : env) (body : forecast_response) :
  get_3day_forecast strptime e = Http200 body -> forecast_body_ok body.
Proof.
  unfold get_3day_forecast, get_db_conn.
  destruct (store e) as [|msg|conn]; try discriminate.
  destruct (forecast_of strptime e conn) as [b|ex] eqn:F.
  - intros [= <-]. unfold forecast_of in F.
    destruct (Sql.select_upcoming (sql_now e) conn) as [rows|];
      cbn [Py.bind] in F; [|discriminate].
    destruct rows as [|r rows].
    + eapply fallback_body_ok; eauto.
    + eapply process_body_ok; eauto.
  - destruct (get_fallback_forecast (today_of e)) as [b|] eqn:Fb;
      [|discriminate].
    intros [= <-]. eapply fallback_body_ok; eauto.
Qed.


End ForecastEndpoint.

(* ===================================================================== *)
(** * The further properties on the sample request *)
(* ===================================================================== *)

Lemma current_storm_is_first_day_witness :
  exists resp,
    snd (process_real_forecast_data Cal.strptime_fixed sample_today sample_rows)
    = Ok resp
    /\ currentStorm resp = MODERATE
    /\ (currentStorm resp
        = match days resp with d :: _ => stormLevel d | [] => CALM end
        /\ In (currentStorm resp) storm_levels
        /\ dict_get warnings (currentStorm resp) = Some (warning resp)
        /\ warning resp <> GENERIC_WARNING
        /\ location resp = MOSCOW).
Proof.
  eexists. split; [vm_compute; reflexivity|].
  split; [vm_compute; reflexivity|].
  apply (current_storm_is_first_day Cal.strptime_fixed sample_today sample_rows).
  vm_compute; reflexivity.
Defined.

Lemma all_rows_skipped_no_days_witness :
  forallb (skipped Cal.strptime_fixed sample_today) [stale_row; malformed_row]
  = true
  /\ snd (process_real_forecast_data Cal.strptime_fixed sample_today
            [stale_row; malformed_row])
     = Ok (mkresponse "Москва" "Спокойное"
             "Геомагнитная обстановка спокойная" []).
Proof.
  split; [vm_compute; reflexivity|].
  refine (proj1 (all_rows_skipped_no_days Cal.strptime_fixed sample_today
                   [stale_row; malformed_row] _)).
  vm_compute; reflexivity.
Defined.

Lemma returned_series_are_numbers_witness :
  exists resp,
    snd (process_real_forecast_data Cal.strptime_fixed sample_today sample_rows)
    = Ok resp
    /\ Forall (fun dy => values (data dy) <> []
                         /\ Forall (fun v => Py.is_number v = true)
                                   (values (data dy)))
              (days resp).
Proof.
  eexists. split; [vm_compute; reflexivity|].
  apply (returned_series_are_numbers Cal.strptime_fixed sample_today sample_rows).
  vm_compute; reflexivity.
Defined.

Lemma non_number_only_beyond_third_day_witness :
  exists resp,
    snd (process_real_forecast_data Cal.strptime_fixed sample_today
           (sample_rows ++ [null_kp_row]))
    = Ok resp
    /\ In (Cal.mkdatetime (Cal.mkdate 2026 11 6 eq_refl) 18 0 0 0 eq_refl,
           PyNone)
          (retained Cal.strptime_fixed sample_today
                    (sample_rows ++ [null_kp_row]))
    /\ List.length (days resp) = 3%nat.
Proof.
  eexists. split; [vm_compute; reflexivity|].
  split; [vm_compute; repeat (try (left; reflexivity); right)|].
  refine (proj1 (non_number_only_beyond_third_day Cal.strptime_fixed
                   sample_today (sample_rows ++ [null_kp_row]) _
                   (Cal.mkdatetime (Cal.mkdate 2026 11 6 eq_refl) 18 0 0 0
                                   eq_refl)
                   PyNone _ _ _));
    [vm_compute; reflexivity
    |vm_compute; repeat (try (left; reflexivity); right)
    |reflexivity].
Defined.


Lemma select_upcoming_rows_witness :
  exists rows,
    Sql.select_upcoming "2026-11-03 07:00:00"
      (Sql.Open (Sql.mkdb [Sql.TABLE] (stale_row :: sample_rows)))
    = Ok rows
    /\ List.length rows = 5%nat
    /\ StronglySorted (row_before false) rows.
Proof.
  eexists. split; [vm_compute; reflexivity|].
  split; [vm_compute; reflexivity|].
  refine (proj2 (proj2 (select_upcoming_rows
                          (Sql.Open (Sql.mkdb [Sql.TABLE] (stale_row :: sample_rows)))
                          "2026-11-03 07:00:00" (stale_row :: sample_rows) _
                          _ _)));
    vm_compute; reflexivity.
Defined.


Lemma get_day_name_labels_witness :
  exists name,
    get_day_name sample_today (Cal.mkdate 2026 11 5 eq_refl) = Ok name
    /\ (name = TODAY <-> Cal.mkdate 2026 11 5 eq_refl = sample_today)
    /\ (name = TOMORROW
        <-> Cal.add_one_day sample_today = Ok (Cal.mkdate 2026 11 5 eq_refl))
    /\ (name <> TODAY -> name <> TOMORROW ->
        nth_error days_ru (Z.to_nat (Cal.weekday (Cal.mkdate 2026 11 5 eq_refl)))
        = Some name).
Proof.
  apply (get_day_name_labels sample_today (Cal.mkdate 2026 11 5 eq_refl)).
  vm_compute; reflexivity.
Defined.

Lemma old_forecast_consecutive_days_witness :
  Cal.add_one_day (today_of empty_table_env) = Ok (Cal.mkdate 2026 11 4 eq_refl)
  /\ String.ltb (Cal.isoformat (today_of empty_table_env))
                (Cal.isoformat (Cal.mkdate 2026 11 4 eq_refl)) = true.
Proof.
  split; [vm_compute; reflexivity|].
  refine (proj2 (proj2 (proj1 (old_forecast_consecutive_days empty_table_env)
                          (Cal.mkdate 2026 11 4 eq_refl) _))).
  vm_compute; reflexivity.
Defined.

Lemma forecast_responses_well_formed_witness :
  exists body,
    get_3day_forecast Cal.strptime_fixed sample_table_env = Http200 body
    /\ map day (days body) = ["Сегодня"; "Завтра"; "Четверг"]
    /\ forecast_body_ok body.
Proof.
  eexists. split; [vm_compute; reflexivity|].
  split; [vm_compute; reflexivity|].
  apply (forecast_responses_well_formed Cal.strptime_fixed sample_table_env).
  vm_compute; reflexivity.
Defined.


(** With a NULL Kp index in today's only row, the handler's processing
    raises and the endpoint answers with the fallback forecast. *)
Example null_kp_falls_back :
  forecast_of Cal.strptime_fixed null_kp_env
    (Sql.Open (Sql.mkdb [Sql.TABLE] [sample_row "2026-11-03 12:00:00" PyNone]))
  = Raise (TypeError "'>=' not supported between instances of 'NoneType' and 'float'")
  /\ option_map (fun b => map day (days b))
       (match get_3day_forecast Cal.strptime_fixed null_kp_env with
        | Http200 b => Some b
        | Http500 _ => None
        end)
     = Some ["Сегодня"; "Завтра"].
Proof. split; vm_compute; reflexivity. Qed.
